(** * The Tango.me scraper of [main.py], embedded and verified

    The development follows the class [TangoScraper]: the number normaliser
    [_extract_number], the card extractor [_extract_broadcaster_data], and the
    two scans [get_live_broadcasters] and [get_broadcaster_profile].

    Python values are modelled as the code uses them: text as strings of
    code points below 256, [float] as IEEE-754 binary64 through the Standard
    Library's [SpecFloat], [dict] as a finite map from keys to tagged values,
    exceptions as an error monad with [try]/[except], and the parsed page as
    a tree of tags and strings searched in document order. *)

From Stdlib Require Import ZArith NArith Ascii String List Bool Lia.
From Stdlib Require Import Floats.SpecFloat.
From stdpp Require Import gmap strings list sorting.

Local Open Scope Z_scope.

(** ** Exceptions *)

Module Py.

(** Classes derived from [Exception]; these are what [except Exception] and
    a bare [except] both catch. *)
Inductive exn : Set :=
| ValueError
| OverflowError
| KeyError (key : string)
| RequestException (reason : string)
| HTTPError (status : Z)
| ParserError (reason : string).

Inductive result (A : Type) : Type :=
| Return (a : A)
| Raise (e : exn).
Arguments Return {A} a.
Arguments Raise {A} e.

#[global] Instance result_ret : MRet result := λ A a, Return a.
#[global] Instance result_bind : MBind result :=
  λ A B f m, match m with Return a => f a | Raise e => Raise e end.

(** [try: body except: handler] *)
Definition try_except {A} (body : result A) (handler : exn → result A) : result A :=
  match body with
  | Return a => Return a
  | Raise e => handler e
  end.

Definition raises {A} (r : result A) : Prop := ∃ e, r = Raise e.

(** *** Strings *)

Definition code (c : ascii) : N := N_of_ascii c.

Definition between (lo hi : N) (c : ascii) : bool :=
  ((lo <=? code c) && (code c <=? hi))%N.

(** [\d] of [re] on code points below 256: the ten ASCII digits. *)
Definition is_digit (c : ascii) : bool := between 48 57 c.

(** [str.isspace], the characters [str.strip()] removes. *)
Definition is_space (c : ascii) : bool :=
  between 9 13 c || between 28 32 c || (code c =? 133)%N || (code c =? 160)%N.

(** [str.lower] on one character: A-Z, and the Latin-1 capitals except the
    multiplication sign. *)
Definition lower_char (c : ascii) : ascii :=
  if between 65 90 c || (between 192 222 c && negb (code c =? 215)%N)
  then ascii_of_N (code c + 32)
  else c.

Fixpoint lower (s : string) : string :=
  match s with
  | EmptyString => EmptyString
  | String c r => String (lower_char c) (lower r)
  end.

Fixpoint startswith (p s : string) : bool :=
  match p, s with
  | EmptyString, _ => true
  | String a p', String b s' => Ascii.eqb a b && startswith p' s'
  | String _ _, EmptyString => false
  end.

(** [needle in hay] *)
Fixpoint contains (needle hay : string) : bool :=
  startswith needle hay ||
  match hay with
  | EmptyString => false
  | String _ r => contains needle r
  end.

Fixpoint lstrip (s : string) : string :=
  match s with
  | EmptyString => EmptyString
  | String c r => if is_space c then lstrip r else s
  end.

Fixpoint rstrip (s : string) : string :=
  match s with
  | EmptyString => EmptyString
  | String c r =>
      match rstrip r with
      | EmptyString => if is_space c then EmptyString else String c EmptyString
      | r' => String c r'
      end
  end.

Definition strip (s : string) : string := rstrip (lstrip s).

(** Truthiness of a string: the empty string is falsy. *)
Definition truthy_str (s : string) : bool :=
  match s with EmptyString => false | _ => true end.

(** *** [re.findall(r'[\d.]+', text)] *)

Definition digit_or_dot (c : ascii) : bool := is_digit c || (code c =? 46)%N.

(** Left-to-right scan; [cur] is the run being read, most recent character
    last. Every maximal run of class characters is one match. *)
Fixpoint findall_from (cur : string) (s : string) : list string :=
  match s with
  | EmptyString => if truthy_str cur then [cur] else []
  | String c r =>
      if digit_or_dot c then findall_from (cur +:+ String c EmptyString) r
      else if truthy_str cur then cur :: findall_from EmptyString r
      else findall_from EmptyString r
  end.

Definition re_findall_digits_dots (text : string) : list string :=
  findall_from EmptyString text.

(** *** [float] *)

Definition prec : Z := 53.
Definition emax : Z := 1024.

Abbreviation float := spec_float.

(** Conversion of an [int] operand to [float], as [num *= 1000] does. *)
Definition float_of_int (n : Z) : float := binary_normalize prec emax n 0 false.

Definition float_mul (x y : float) : float := SFmul prec emax x y.

(** The digits of a run, and where its dots are. *)
Definition digit_val (c : ascii) : Z := Z.of_N (code c) - 48.

Definition is_dot (c : ascii) : bool := (code c =? 46)%N.

Fixpoint count_dots (s : string) : nat :=
  match s with
  | EmptyString => O
  | String c r => if is_dot c then S (count_dots r) else count_dots r
  end.

Fixpoint all_digit_or_dot (s : string) : bool :=
  match s with
  | EmptyString => true
  | String c r => (is_digit c || is_dot c) && all_digit_or_dot r
  end.

Fixpoint count_digits (s : string) : nat :=
  match s with
  | EmptyString => O
  | String c r => if is_digit c then S (count_digits r) else count_digits r
  end.

(** All digits read as one decimal integer, dots skipped. *)
Fixpoint digits_value (acc : Z) (s : string) : Z :=
  match s with
  | EmptyString => acc
  | String c r => if is_digit c then digits_value (10 * acc + digit_val c) r
                  else digits_value acc r
  end.

(** Number of digits after the first dot. *)
Fixpoint fraction_digits (s : string) : nat :=
  match s with
  | EmptyString => O
  | String c r => if is_dot c then count_digits r else fraction_digits r
  end.

(** [float(s)] for [s] drawn from digits and dots, the only strings the
    pattern above can hand over: a decimal literal needs at least one digit
    and at most one dot, and is rounded to the nearest binary64 value (ties
    to even); anything else is a [ValueError]. *)
Definition float_of_str (s : string) : result float :=
  if all_digit_or_dot s && Nat.leb (count_dots s) 1 && Nat.ltb 0 (count_digits s) then
    match digits_value 0 s with
    | Zpos n =>
        Return (SFdiv prec emax (S754_finite false n 0)
                  (S754_finite false (Z.to_pos (10 ^ Z.of_nat (fraction_digits s))) 0))
    | _ => Return (S754_zero false)
    end
  else Raise ValueError.

(** [int(x)]: truncation toward zero; infinities and NaN raise. *)
Definition int_of_float (x : float) : result Z :=
  match x with
  | S754_zero _ => Return 0
  | S754_finite s m e =>
      let z := cond_Zopp s (Zpos m) in
      Return (if 0 <=? e then z * 2 ^ e else Z.quot z (2 ^ (- e)))
  | S754_infinity _ => Raise OverflowError
  | S754_nan => Raise ValueError
  end.

(** *** Values held in a [dict] *)

Inductive value : Set :=
| VNone
| VBool (b : bool)
| VInt (z : Z)
| VStr (s : string).

#[global] Instance value_eq_dec : EqDecision value.
Proof. solve_decision. Defined.

Abbreviation dict := (gmap string value).

(** [d[key]] *)
Definition getitem (d : dict) (key : string) : result value :=
  match d !! key with
  | Some v => Return v
  | None => Raise (KeyError key)
  end.

(** Truthiness of a [dict]: only the empty one is falsy. *)
Definition truthy_dict (d : dict) : bool := negb (bool_decide (d = ∅)).

(** [a or b] on values that are a string or [None]. *)
Definition or_else (a b : option string) : option string :=
  match a with
  | Some s => if truthy_str s then a else b
  | None => b
  end.

(** A string or [None] as a [dict] value. *)
Definition of_optional (o : option string) : value :=
  match o with
  | Some s => VStr s
  | None => VNone
  end.

End Py.

(** ** The parsed page *)

Module Bs4.
Import Py.

(** A tag carries its name, the tokens of its [class] attribute (the one
    attribute the parser splits into a list), its other attributes, and its
    children in document order. *)
#[warnings="-register-all"]
Inductive node : Type :=
| Tag (name : string) (classes : list string) (attrs : gmap string string)
      (contents : list node)
| NavigableString (s : string)
| Comment (s : string).

(** [.descendants]: every node below, in document order. *)
Fixpoint descendants (n : node) : list node :=
  match n with
  | Tag _ _ _ contents => flat_map (λ c, c :: descendants c) contents
  | _ => []
  end.

(** [.text]: the strings below, concatenated; comments are left out. *)
Fixpoint text (n : node) : string :=
  match n with
  | Tag _ _ _ contents => fold_right (λ c acc, text c +:+ acc) EmptyString contents
  | NavigableString s => s
  | Comment _ => EmptyString
  end.

(** [.get(key)] *)
Definition get (key : string) (n : node) : option string :=
  match n with
  | Tag _ _ attrs _ => attrs !! key
  | _ => None
  end.

(** The filters of [find] and [find_all]: a list of tag names, a list of
    class tokens of which one must be among the tag's, an attribute that
    must be present. *)
Definition named (names : list string) (n : node) : bool :=
  match n with
  | Tag name _ _ _ => bool_decide (name ∈ names)
  | _ => false
  end.

Definition class_ (tokens : list string) (n : node) : bool :=
  match n with
  | Tag _ classes _ _ => existsb (λ c, bool_decide (c ∈ tokens)) classes
  | _ => false
  end.

Definition has_attr (key : string) (n : node) : bool :=
  match get key n with Some _ => true | None => false end.

Definition find_all (p : node → bool) (n : node) : list node :=
  List.filter p (descendants n).

Definition find (p : node → bool) (n : node) : option node :=
  head (find_all p n).

End Bs4.

(** ** The scraper *)

Module TangoScraper.
Import Py Bs4.

(** [_extract_number(self, text)]. The body of the [try] either executes
    [return int(num)] ([Some]) or falls off its end ([None]); the bare
    [except: pass] turns any exception into the second; [return 0] follows. *)
Definition _extract_number (text : string) : result Z :=
  returned ← try_except
    (let numbers := re_findall_digits_dots text in
     match numbers with
     | first :: _ =>
         num ← float_of_str first;
         let num :=
           if contains "k" (lower text) then float_mul num (float_of_int 1000)
           else if contains "m" (lower text) then float_mul num (float_of_int 1000000)
           else num in
         n ← int_of_float num;
         mret (Some n)
     | [] => mret None
     end)
    (λ _, mret None);
  match returned with
  | Some n => mret n
  | None => mret 0
  end.

(** The selectors of the card path. *)
Definition username_cue (n : node) : bool :=
  named ["span"; "div"; "h3"] n && class_ ["username"; "broadcaster-name"; "name"] n.

Definition viewers_cue (n : node) : bool :=
  named ["span"; "div"] n && class_ ["viewers"; "viewer-count"; "live-count"] n.

Definition title_cue (n : node) : bool :=
  named ["span"; "div"; "p"] n && class_ ["title"; "stream-title"; "description"] n.

(** [element.find('a') or element.find(['div', 'span'], {'data-href': True})] *)
Definition find_link_elem (element : node) : option node :=
  match find (named ["a"]) element with
  | Some a => Some a
  | None => find (λ n, named ["div"; "span"] n && has_attr "data-href" n) element
  end.

(** [link_elem.get('href') or link_elem.get('data-href')] *)
Definition link_href (link_elem : node) : option string :=
  or_else (get "href" link_elem) (get "data-href" link_elem).

(** [f"https://www.tango.me{href}" if href and href.startswith('/') else href] *)
Definition resolve_href (href : option string) : value :=
  match href with
  | Some h =>
      if truthy_str h && startswith "/" h
      then VStr ("https://www.tango.me" +:+ h)
      else VStr h
  | None => VNone
  end.

(** [_extract_broadcaster_data(self, element)]; [now] is what
    [datetime.now().isoformat()] reads during the call. *)
Definition _extract_broadcaster_data (now : string) (element : node)
  : result (option dict) :=
  try_except
    (let data : dict := ∅ in
     let username_elem := find username_cue element in
     let data :=
       <["username" :=
           VStr (match username_elem with
                 | Some e => strip (text e)
                 | None => "Unknown"
                 end)]> data in
     let viewers_elem := find viewers_cue element in
     viewers ← _extract_number
                 (match viewers_elem with Some e => text e | None => "0" end);
     let data := <["viewers" := VInt viewers]> data in
     let img_elem := find (named ["img"]) element in
     let data :=
       <["profile_image" :=
           match img_elem with
           | Some e => of_optional (get "src" e)
           | None => VNone
           end]> data in
     let title_elem := find title_cue element in
     let data :=
       <["title" :=
           VStr (match title_elem with
                 | Some e => strip (text e)
                 | None => EmptyString
                 end)]> data in
     let data :=
       match find_link_elem element with
       | Some link_elem =>
           <["profile_url" := resolve_href (link_href link_elem)]> data
       | None => data
       end in
     let data := <["timestamp" := VStr now]> data in
     let data := <["is_live" := VBool true]> data in
     username ← getitem data "username";
     if bool_decide (username ≠ VStr "Unknown") then mret (Some data)
     else mret None)
    (λ _, mret None).

(** The selectors of the listing and of the profile page. *)
Definition card_cue (n : node) : bool :=
  named ["div"] n && class_ ["broadcaster-card"; "live-stream-card"; "stream-item"] n.

Definition stat_cue (n : node) : bool :=
  named ["span"; "div"] n && class_ ["stat"; "count"; "number"] n.

Definition bio_cue (n : node) : bool :=
  named ["div"; "p"] n && class_ ["bio"; "description"; "about"] n.

Definition avatar_cue (n : node) : bool :=
  named ["img"] n && class_ ["profile-pic"; "avatar"; "profile-image"] n.

(** One iteration of [for stat in stats_elements]. *)
Definition stat_step (profile_data : dict) (stat : node) : result dict :=
  let text := lower (text stat) in
  if contains "follower" text then
    n ← _extract_number (Bs4.text stat);
    mret (<["followers" := VInt n]> profile_data)
  else if contains "following" text then
    n ← _extract_number (Bs4.text stat);
    mret (<["following" := VInt n]> profile_data)
  else mret profile_data.

Fixpoint for_each_stat (stats_elements : list node) (profile_data : dict)
  : result dict :=
  match stats_elements with
  | [] => mret profile_data
  | stat :: rest =>
      profile_data ← stat_step profile_data stat;
      for_each_stat rest profile_data
  end.

Section Scans.

(** The world outside: [session_get url] is [self.session.get(url,
    timeout=10)] followed by [raise_for_status()] and gives the response
    text or the exception raised; [BeautifulSoup] is the HTML parser;
    [clock n] is the [n]-th reading of [datetime.now().isoformat()]. *)
Variable session_get : string → result string.
Variable BeautifulSoup : string → result node.
Variable clock : nat → string.

(** [for element in broadcaster_elements]; [tick] counts the clock
    readings made so far. *)
Fixpoint for_each_card (tick : nat) (broadcaster_elements : list node)
    (broadcasters : list dict) : result (list dict) :=
  match broadcaster_elements with
  | [] => mret broadcasters
  | element :: rest =>
      broadcaster_data ← _extract_broadcaster_data (clock tick) element;
      for_each_card (S tick) rest
        (match broadcaster_data with
         | Some d => if truthy_dict d then broadcasters ++ [d] else broadcasters
         | None => broadcasters
         end)
  end.

Definition get_live_broadcasters (tick : nat) : result (list dict) :=
  try_except
    (let url := "https://www.tango.me/live/nearby" in
     response ← session_get url;
     soup ← BeautifulSoup response;
     let broadcasters := [] in
     let broadcaster_elements := find_all card_cue soup in
     for_each_card tick broadcaster_elements broadcasters)
    (λ _, mret []).

Definition get_broadcaster_profile (tick : nat) (username : string)
  : result (option dict) :=
  try_except
    (let url := "https://www.tango.me/" +:+ username in
     response ← session_get url;
     soup ← BeautifulSoup response;
     let profile_data : dict :=
       <["timestamp" := VStr (clock tick)]>
       (<["last_seen" := VStr EmptyString]>
       (<["is_verified" := VBool false]>
       (<["profile_image" := VStr EmptyString]>
       (<["bio" := VStr EmptyString]>
       (<["total_streams" := VInt 0]>
       (<["following" := VInt 0]>
       (<["followers" := VInt 0]>
       (<["username" := VStr username]> ∅)))))))) in
     let stats_elements := find_all stat_cue soup in
     profile_data ← for_each_stat stats_elements profile_data;
     let bio_elem := find bio_cue soup in
     let profile_data :=
       match bio_elem with
       | Some e => <["bio" := VStr (strip (text e))]> profile_data
       | None => profile_data
       end in
     let img_elem := find avatar_cue soup in
     let profile_data :=
       match img_elem with
       | Some e => <["profile_image" := of_optional (get "src" e)]> profile_data
       | None => profile_data
       end in
     mret (Some profile_data))
    (λ _, mret None).

End Scans.

End TangoScraper.

(** ** The normaliser as the specification words it *)

Module Spec.
Import Py.

(** The run of digits and dots that starts the string. *)
Fixpoint take_run (s : string) : string :=
  match s with
  | EmptyString => EmptyString
  | String c r => if digit_or_dot c then String c (take_run r) else EmptyString
  end.

(** The first contiguous run of digits and dots, if there is one. *)
Fixpoint first_run (s : string) : option string :=
  match s with
  | EmptyString => None
  | String c r => if digit_or_dot c then Some (take_run s) else first_run r
  end.

(** Presence of a unit letter anywhere in the text, in either case. *)
Fixpoint has_unit (u : ascii) (text : string) : bool :=
  match text with
  | EmptyString => false
  | String c r => bool_decide (lower_char c = u) || has_unit u r
  end.

(** The magnitude times its unit; ["k"] is looked for first. *)
Definition scale (text : string) (x : float) : float :=
  if has_unit "k" text then float_mul x (float_of_int 1000)
  else if has_unit "m" text then float_mul x (float_of_int 1000000)
  else x.

(** Truncation; a value that has no integer part to take gives 0. *)
Definition truncate (x : float) : Z :=
  match int_of_float x with
  | Return n => n
  | Raise _ => 0
  end.

Definition normalize (text : string) : Z :=
  match first_run text with
  | None => 0
  | Some run =>
      match float_of_str run with
      | Return x => truncate (scale text x)
      | Raise _ => 0
      end
  end.

(** A username the specification calls resolvable: an element under the
    username cue whose stripped text is neither empty nor the sentinel. *)
Definition resolvable_username (element : Bs4.node) : bool :=
  match Bs4.find TangoScraper.username_cue element with
  | Some e =>
      truthy_str (strip (Bs4.text e)) &&
      negb (bool_decide (strip (Bs4.text e) = "Unknown"))
  | None => false
  end.

(** The run as section 4.1 of the specification words it: contiguous digits
    with at most one decimal point among them, and at least one digit. *)
Fixpoint split_digits (s : string) : string * string :=
  match s with
  | EmptyString => (EmptyString, EmptyString)
  | String c r =>
      if is_digit c
      then let '(digits, rest) := split_digits r in (String c digits, rest)
      else (EmptyString, s)
  end.

Definition one_point_run_at (s : string) : option string :=
  let '(whole_part, rest) := split_digits s in
  match rest with
  | String c r =>
      if is_dot c then
        let '(fraction, _) := split_digits r in
        if truthy_str whole_part || truthy_str fraction
        then Some (whole_part +:+ String c fraction)
        else None
      else if truthy_str whole_part then Some whole_part else None
  | EmptyString => if truthy_str whole_part then Some whole_part else None
  end.

Fixpoint first_one_point_run (s : string) : option string :=
  match one_point_run_at s with
  | Some run => Some run
  | None =>
      match s with
      | EmptyString => None
      | String _ r => first_one_point_run r
      end
  end.

(** The normaliser read with that run: the first digit run as a magnitude,
    scaled by the unit and truncated. *)
Definition normalize_one_point (text : string) : Z :=
  match first_one_point_run text with
  | None => 0
  | Some run =>
      match float_of_str run with
      | Return x => truncate (scale text x)
      | Raise _ => 0
      end
  end.

(** An input that reads as a negative number: a minus sign, then a digit. *)
Definition negative_looking (text : string) : bool :=
  match text with
  | String sign (String c _) => bool_decide (sign = "-"%char) && is_digit c
  | _ => false
  end.

End Spec.

(** ** Notions the properties are stated with *)

Section Notions.
Import Py Bs4 TangoScraper.

(** A float that is finite is not below zero. *)
Definition not_negative (x : float) : Prop :=
  match x with
  | S754_finite s _ _ => s = false
  | _ => True
  end.

(** The username the extractor stores: the stripped text of the first
    element under the username cue, or the sentinel when there is none. *)
Definition card_username (element : node) : string :=
  match find username_cue element with
  | Some e => strip (text e)
  | None => "Unknown"
  end.

Definition live_url : string := "https://www.tango.me/live/nearby".
Definition profile_url (username : string) : string :=
  "https://www.tango.me/" +:+ username.

(** A fragment the directory scan keeps: its username is not the sentinel. *)
Definition has_username (element : node) : bool :=
  negb (bool_decide (card_username element = "Unknown")).

(** Which counter a stat element feeds: the test for "follower" comes
    first, and "following" is looked at only when that one fails. *)
Definition follower_stat (stat : node) : bool :=
  contains "follower" (lower (text stat)).

Definition following_stat (stat : node) : bool :=
  negb (contains "follower" (lower (text stat))) &&
  contains "following" (lower (text stat)).

(** The count read from the last element that passes [p], or 0. *)
Definition last_count (p : node → bool) (stats_elements : list node) : value :=
  match last (List.filter p stats_elements) with
  | Some stat => VInt (Spec.normalize (text stat))
  | None => VInt 0
  end.

End Notions.

(** ** Sample pages *)

Module Samples.
Import Py Bs4.

(** Card fragments. *)
Definition blank_name_card : node :=
  Tag "div" ["stream-item"] ∅
    [Tag "span" ["username"] ∅ [NavigableString "  "];
     Tag "span" ["viewers"] ∅ [NavigableString "1.2K watching"]].

Definition alice_card : node :=
  Tag "div" ["broadcaster-card"] ∅
    [Tag "h3" ["name"] ∅ [NavigableString " alice "];
     Tag "a" [] {["href" := "/alice"]} []].

Definition carol_card : node :=
  Tag "div" ["live-stream-card"] ∅
    [Tag "div" ["username"] ∅ [NavigableString "carol"];
     Tag "a" [] {["href" := "https://example.org/carol"]} []].

Definition nameless_card : node :=
  Tag "div" ["stream-item"] ∅
    [Tag "span" ["viewers"] ∅ [NavigableString "7"];
     Tag "a" [] {["href" := "/nobody"]} []].

Definition bare_anchor_card : node :=
  Tag "div" ["stream-item"] ∅
    [Tag "span" ["username"] ∅ [NavigableString "dave"];
     Tag "a" [] ∅ [NavigableString "profile"];
     Tag "div" [] {["data-href" := "/dave"]} []].

Definition name_only_card : node :=
  Tag "div" ["stream-item"] ∅
    [Tag "span" ["username"] ∅ [NavigableString "erin"]].

(** Records as a scan returns them, for the listings. *)
Definition record_of (username : string) (viewers : Z) : dict :=
  <["viewers" := VInt viewers]> {["username" := VStr username]}.

Definition sample_scan : list dict :=
  [record_of "ann" 5; record_of "ben" 9; record_of "cat" 5;
   record_of "dan" 0; record_of "eve" 12; record_of "fay" 7].

Definition document (contents : list node) : node :=
  Tag "[document]" [] ∅ contents.

(** A world in which every fetch succeeds and parses to [soup]. *)
Definition fetched : string → result string := λ _, Return "<html>".
Definition served (soup : node) : string → result node := λ _, Return soup.
Definition wall_clock : nat → string := λ _, "2024-01-01T00:00:00".

(** A world in which the site cannot be reached. *)
Definition unreachable : string → result string :=
  λ _, Raise (RequestException "connection refused").

Definition listing_page : node :=
  document [alice_card; nameless_card;
            Tag "section" [] ∅ [carol_card; blank_name_card]].

Definition blank_listing : node := document [blank_name_card].

Definition bob_page : node :=
  document
    [Tag "span" ["stat"] ∅ [NavigableString "1.5K followers"];
     Tag "div" ["count"] ∅ [NavigableString "300 following"];
     Tag "img" ["avatar"] {["src" := "https://cdn.example.org/bob.png"]} []].

Definition both_words_stat : node :=
  Tag "span" ["stat"] ∅ [NavigableString "3 following, 4 followers"].

Definition no_src_page : node := document [Tag "img" ["avatar"] ∅ []].

End Samples.

(** ** The records the scans build *)

Section Records.
Import Py Bs4 TangoScraper.

(** The dictionary [_extract_broadcaster_data] has filled for a fragment,
    read at [now], when it reaches its sentinel test. *)
Definition card_record (now : string) (element : node) : dict :=
  let data : dict :=
    <["title" :=
        VStr (match find title_cue element with
              | Some e => strip (text e)
              | None => EmptyString
              end)]>
    (<["profile_image" :=
        match find (named ["img"]) element with
        | Some e => of_optional (get "src" e)
        | None => VNone
        end]>
    (<["viewers" :=
        VInt (Spec.normalize
                (match find viewers_cue element with
                 | Some e => text e
                 | None => "0"
                 end))]>
    (<["username" := VStr (card_username element)]> ∅))) in
  let data :=
    match find_link_elem element with
    | Some link_elem => <["profile_url" := resolve_href (link_href link_elem)]> data
    | None => data
    end in
  <["is_live" := VBool true]> (<["timestamp" := VStr now]> data).

(** What the directory loop appends for a list of fragments: one record
    for each fragment it keeps, each fragment, kept or not, taking one
    reading of the clock. *)
Fixpoint card_records (clock : nat → string) (tick : nat)
    (broadcaster_elements : list node) : list dict :=
  match broadcaster_elements with
  | [] => []
  | element :: rest =>
      (if has_username element then [card_record (clock tick) element] else [])
        ++ card_records clock (S tick) rest
  end.

(** One stat element applied to the profile record. *)
Definition apply_stat (profile_data : dict) (stat : node) : dict :=
  if follower_stat stat
  then <["followers" := VInt (Spec.normalize (text stat))]> profile_data
  else if following_stat stat
  then <["following" := VInt (Spec.normalize (text stat))]> profile_data
  else profile_data.

(** The dictionary [get_broadcaster_profile] returns for a parsed page. *)
Definition profile_record (now username : string) (soup : node) : dict :=
  let profile_data : dict :=
    <["timestamp" := VStr now]>
    (<["last_seen" := VStr EmptyString]>
    (<["is_verified" := VBool false]>
    (<["profile_image" := VStr EmptyString]>
    (<["bio" := VStr EmptyString]>
    (<["total_streams" := VInt 0]>
    (<["following" := VInt 0]>
    (<["followers" := VInt 0]>
    (<["username" := VStr username]> ∅)))))))) in
  let profile_data := fold_left apply_stat (find_all stat_cue soup) profile_data in
  let profile_data :=
    match find bio_cue soup with
    | Some e => <["bio" := VStr (strip (text e))]> profile_data
    | None => profile_data
    end in
  match find avatar_cue soup with
  | Some e => <["profile_image" := of_optional (get "src" e)]> profile_data
  | None => profile_data
  end.

(** A record as every caller of the directory scan finds it. *)
Definition listed (d : dict) : Prop :=
  d !! "is_live" = Some (VBool true) ∧
  (∃ username, d !! "username" = Some (VStr username) ∧ username ≠ "Unknown") ∧
  (∃ viewers, d !! "viewers" = Some (VInt viewers) ∧ 0 ≤ viewers) ∧
  (∃ now, d !! "timestamp" = Some (VStr now)).

(** The keys of a profile record. *)
Definition profile_keys : gset string :=
  {["username"; "followers"; "following"; "total_streams"; "bio";
    "profile_image"; "is_verified"; "last_seen"; "timestamp"]}.

End Records.

(** ** The chat commands' own computations *)

Module Bot.
Import Py.

(** [s.replace(c, '')] for a one-character [c]: every occurrence goes. *)
Fixpoint remove_char (c : ascii) (s : string) : string :=
  match s with
  | EmptyString => EmptyString
  | String a r =>
      if Ascii.eqb a c then remove_char c r else String a (remove_char c r)
  end.

(** [context.args[0].replace('@', '')] of [profile_command]. *)
Definition requested_username (arg : string) : string := remove_char "@" arg.

(** [x.get('viewers', 0)], the sort key of both listings. *)
Definition viewers_key (x : dict) : value := default (VInt 0) (x !! "viewers").

(** The order of Python on these keys: numbers ([int], and [bool] as 0 and
    1) compare with each other, strings with each other by code points, and
    [None] with nothing. *)
Definition number_of (v : value) : option Z :=
  match v with
  | VInt n => Some n
  | VBool b => Some (Z.b2z b)
  | _ => None
  end.

Definition is_number (v : value) : bool :=
  match number_of v with Some _ => true | None => false end.

Definition is_text (v : value) : bool :=
  match v with VStr _ => true | _ => false end.

(** [a < b] for two keys that compare. *)
Definition key_lt (a b : value) : bool :=
  match number_of a, number_of b with
  | Some m, Some n => m <? n
  | _, _ =>
      match a, b with
      | VStr s, VStr t => String.ltb s t
      | _, _ => false
      end
  end.

(** A stable sort with [reverse=True]: bigger keys first, and records with
    equal keys in the order they had. An element goes in front of the first
    one whose key is not bigger than its own. *)
Fixpoint insert_desc (x : dict) (sorted : list dict) : list dict :=
  match sorted with
  | [] => [x]
  | y :: rest =>
      if key_lt (viewers_key x) (viewers_key y) then y :: insert_desc x rest
      else x :: sorted
  end.

Fixpoint sort_desc (l : list dict) : list dict :=
  match l with
  | [] => []
  | x :: rest => insert_desc x (sort_desc rest)
  end.

(** [sorted(broadcasters, key=lambda x: x.get('viewers', 0), reverse=True)],
    and [broadcasters.sort(...)] with the same arguments. A list of fewer
    than two records is not compared at all; otherwise the keys must all be
    numbers or all be strings, and [None] stands for the [TypeError] the
    comparison raises when they are not. *)
Definition sorted_by_viewers (broadcasters : list dict) : option (list dict) :=
  let keys := viewers_key <$> broadcasters in
  if (length broadcasters <=? 1)%nat || forallb is_number keys || forallb is_text keys
  then Some (sort_desc broadcasters)
  else None.

(** [broadcasters[:10]] after the sort, the entries of [live_broadcasters_command]. *)
Definition live_listing (broadcasters : list dict) : option (list dict) :=
  take 10 <$> sorted_by_viewers broadcasters.

(** [sorted(...)[:5]], the entries of [top_broadcasters_command]. *)
Definition top_broadcasters (broadcasters : list dict) : option (list dict) :=
  take 5 <$> sorted_by_viewers broadcasters.

(** [s[:n]] *)
Fixpoint take_chars (n : nat) (s : string) : string :=
  match n, s with
  | S n', String c r => String c (take_chars n' r)
  | _, _ => EmptyString
  end.

(** [f"{title[:limit]}{'...' if len(title) > limit else ''}"], with limit
    50 in the live listing, 40 in the top listing, 200 for a bio. *)
Definition shown (limit : nat) (title : string) : string :=
  take_chars limit title +:+
  (if (limit <? String.length title)%nat then "..." else EmptyString).

(** The number a key stands for in a comparison. *)
Definition viewers_number (x : dict) : Z :=
  default 0 (number_of (viewers_key x)).

(** A record whose key is a number. *)
Definition counted (x : dict) : Prop := is_number (viewers_key x) = true.

(** [a] is listed no later than [b]: it has at least as many viewers. *)
Definition outranks (a b : dict) : Prop := viewers_number b ≤ viewers_number a.

End Bot.

(** ** Counts that binary64 holds exactly *)

Section ExactNotions.
Import Py.

(** A run made of digits only. *)
Fixpoint all_digits (s : string) : bool :=
  match s with
  | EmptyString => true
  | String c r => is_digit c && all_digits r
  end.

(** The factor the unit letters stand for; "k" is looked for first. *)
Definition unit_factor (text : string) : Z :=
  if contains "k" (lower text) then 1000
  else if contains "m" (lower text) then 1000000
  else 1.

(** The binary64 value of a whole number below 2^53: the number itself,
    with its mantissa shifted up to 53 bits. *)
Definition whole (n : Z) : float :=
  match n with
  | Zpos _ =>
      S754_finite false (Z.to_pos (n * 2 ^ (52 - Z.log2 n))) (Z.log2 n - 52)
  | _ => S754_zero false
  end.

End ExactNotions.

(** ** Properties of the normaliser *)

Section Normaliser.
Import Py TangoScraper.

Lemma binary_round_aux_not_negative m e l :
  not_negative (binary_round_aux prec emax false m e l).
Proof.
  unfold binary_round_aux.
  destruct (shr_fexp prec emax m e l) as [mrs e'].
  destruct (shr_fexp prec emax _ e' loc_Exact) as [mrs' e''].
  destruct (shr_m mrs'); simpl; try exact I.
  destruct (e'' <=? emax - prec); simpl; [reflexivity | exact I].
Qed.

Lemma float_mul_not_negative x y :
  not_negative x → not_negative y → not_negative (float_mul x y).
Proof.
  unfold float_mul, SFmul.
  destruct x as [sx| sx| |sx mx ex], y as [sy| sy| |sy my ey]; simpl;
    try exact (λ _ _, I).
  intros -> ->. apply binary_round_aux_not_negative.
Qed.

Lemma float_of_int_not_negative n : 0 ≤ n → not_negative (float_of_int n).
Proof.
  intros Hn. unfold float_of_int, binary_normalize.
  destruct n as [|p|p]; simpl; try exact I; [| lia].
  unfold binary_round. destruct (shl_align p 0 _) as [m e].
  apply binary_round_aux_not_negative.
Qed.

Lemma float_of_str_not_negative s x :
  float_of_str s = Return x → not_negative x.
Proof.
  unfold float_of_str.
  destruct (all_digit_or_dot s && _ && _); [| discriminate].
  destruct (digits_value 0 s); intros [= <-]; simpl; try exact I.
  unfold SFdiv.
  destruct (SFdiv_core_binary prec emax _ _ _ _) as [[mz ez] lz].
  apply binary_round_aux_not_negative.
Qed.

Lemma int_of_float_not_negative x n :
  not_negative x → int_of_float x = Return n → 0 ≤ n.
Proof.
  destruct x as [s| s| |s m e]; simpl; try discriminate.
  - intros _ [= <-]. lia.
  - intros -> [= <-]. simpl. destruct (Z.leb_spec 0 e) as [He|He].
    + apply Z.mul_nonneg_nonneg; [lia | apply Z.pow_nonneg; lia].
    + apply Z.quot_pos; [lia |]. apply Z.pow_pos_nonneg; lia.
Qed.

Lemma append_cons (c : ascii) (s t : string) :
  String c s +:+ t = String c (s +:+ t).
Proof. reflexivity. Qed.

Lemma append_empty (s : string) : s +:+ EmptyString = s.
Proof. induction s; rewrite ?append_cons; [reflexivity | congruence]. Qed.

Lemma append_snoc (s t : string) (c : ascii) :
  (s +:+ String c EmptyString) +:+ t = s +:+ String c t.
Proof. induction s; rewrite ?append_cons; [reflexivity | congruence]. Qed.

Lemma head_findall_from_run cur s :
  truthy_str cur = true →
  head (findall_from cur s) = Some (cur +:+ Spec.take_run s).
Proof.
  revert cur. induction s as [|c r IH]; intros cur Hcur; simpl.
  - rewrite Hcur. simpl. now rewrite append_empty.
  - destruct (digit_or_dot c).
    + rewrite IH; [now rewrite append_snoc |].
      destruct cur; reflexivity.
    + rewrite Hcur. simpl. now rewrite append_empty.
Qed.

Lemma head_findall text :
  head (re_findall_digits_dots text) = Spec.first_run text.
Proof.
  unfold re_findall_digits_dots.
  induction text as [|c r IH]; simpl; [reflexivity |].
  destruct (digit_or_dot c); [| exact IH].
  simpl. now rewrite head_findall_from_run.
Qed.

Lemma contains_letter (u : ascii) text :
  contains (String u EmptyString) (lower text) = Spec.has_unit u text.
Proof.
  induction text as [|c r IH]; simpl; [reflexivity |].
  rewrite IH. f_equal. rewrite andb_true_r.
  destruct (Ascii.eqb_spec u (lower_char c)) as [->|Hne].
  - now rewrite bool_decide_eq_true_2.
  - rewrite bool_decide_eq_false_2; [reflexivity | congruence].
Qed.

Lemma _extract_number_normalize text :
  _extract_number text = Return (Spec.normalize text).
Proof.
  unfold _extract_number, Spec.normalize.
  pose proof (head_findall text) as Hhead.
  destruct (re_findall_digits_dots text) as [|run rest]; simpl in Hhead;
    rewrite <- Hhead; [reflexivity |].
  simpl. destruct (float_of_str run) as [x|e]; simpl; [| reflexivity].
  unfold Spec.truncate, Spec.scale.
  rewrite <- !(contains_letter _ text).
  destruct (int_of_float _); reflexivity.
Qed.

Lemma normalize_not_negative text : 0 ≤ Spec.normalize text.
Proof.
  unfold Spec.normalize.
  destruct (Spec.first_run text) as [run|]; [| lia].
  destruct (float_of_str run) as [x|e] eqn:Hx; [| lia].
  apply float_of_str_not_negative in Hx.
  unfold Spec.truncate.
  destruct (int_of_float _) as [n|] eqn:Hn; [| lia].
  eapply int_of_float_not_negative; [| exact Hn].
  unfold Spec.scale.
  destruct (Spec.has_unit "k" text);
    [apply float_mul_not_negative; [assumption | now apply float_of_int_not_negative] |].
  destruct (Spec.has_unit "m" text);
    [apply float_mul_not_negative; [assumption | now apply float_of_int_not_negative] |].
  assumption.
Qed.

(** C4, as amended. [_extract_number] returns on every text, and what it
    returns is never below zero; the empty text, a text without a run of
    digits and dots, and a text whose first such run is no decimal literal
    give 0. A negative-looking text does not always give 0: ["-5"] gives
    5. *)
Theorem extract_number_total_not_negative :
  (∀ text, ∃ n,
      _extract_number text = Return n ∧ 0 ≤ n ∧
      match Spec.first_run text with
      | None => n = 0
      | Some run =>
          match float_of_str run with Raise _ => n = 0 | Return _ => True end
      end) ∧
  _extract_number EmptyString = Return 0 ∧
  _extract_number "no numbers here" = Return 0 ∧
  _extract_number "1.2.3" = Return 0 ∧
  _extract_number "-5" = Return 5.
Proof.
  split; [| by vm_compute].
  intros text. exists (Spec.normalize text).
  split; [apply _extract_number_normalize |].
  split; [apply normalize_not_negative |].
  unfold Spec.normalize. destruct (Spec.first_run text) as [run|]; [| done].
  by destruct (float_of_str run).
Qed.

(** C4 as the specification states it fails: it has every negative-looking
    text give 0, and ["-5"] gives 5. *)
Lemma negative_looking_text_keeps_its_digits :
  ¬ (∀ text,
       (∃ n, _extract_number text = Return n ∧ 0 ≤ n) ∧
       (Spec.negative_looking text = true → _extract_number text = Return 0)).
Proof.
  intros H. destruct (H "-5") as [_ H5].
  specialize (H5 eq_refl). vm_compute in H5. discriminate H5.
Qed.

(** C5, as amended. [_extract_number] takes the first run of digits and
    dots, with any number of dots. When that run is a decimal literal it is
    read as a binary64 magnitude, multiplied by 1000 when the text has a "k"
    in either case, else by 1000000 when it has an "m", and truncated to an
    integer; when there is no run, when the run is no decimal literal (the
    "." of "No. 5k", or "1.2.3"), or when the scaled value is not finite, the
    result is 0. The four values the specification lists hold, and "k" wins
    over "m". *)
Theorem extract_number_scales_by_unit :
  (∀ text, _extract_number text = Return (Spec.normalize text)) ∧
  _extract_number "1.2K" = Return 1200 ∧
  _extract_number "2M" = Return 2000000 ∧
  _extract_number "500" = Return 500 ∧
  _extract_number EmptyString = Return 0 ∧
  _extract_number "3 km" = Return 3000 ∧
  _extract_number "No. 5k" = Return 0 ∧
  _extract_number "Approx. 1.2K viewers" = Return 0 ∧
  _extract_number "1.2.3K" = Return 0.
Proof.
  split; [exact _extract_number_normalize | by vm_compute].
Qed.

(** C5 as the specification states it fails: with a digit run and a "k" in
    the text it has the run scaled, and a dot standing before the run, or a
    second dot inside it, makes the result 0. *)
Lemma stray_dot_gives_zero :
  ¬ (∀ text, _extract_number text = Return (Spec.normalize_one_point text)).
Proof.
  intros H. specialize (H "No. 5k"). vm_compute in H. discriminate H.
Qed.

End Normaliser.

(** ** Properties of the card extractor *)

Section Card.
Import Py Bs4 TangoScraper Samples.

Lemma _extract_number_returns text : ∃ n, _extract_number text = Return n.
Proof. eexists. apply _extract_number_normalize. Qed.

Lemma _extract_broadcaster_data_cases now element :
  ∃ d : dict,
    d !! "username" = Some (VStr (card_username element)) ∧
    d !! "profile_url" =
      (λ link_elem, resolve_href (link_href link_elem)) <$> find_link_elem element ∧
    d !! "is_live" = Some (VBool true) ∧
    _extract_broadcaster_data now element =
      Return (if bool_decide (card_username element = "Unknown") then None else Some d).
Proof.
  unfold _extract_broadcaster_data.
  rewrite _extract_number_normalize. simpl.
  fold (card_username element).
  match goal with |- context [getitem ?d "username"] => exists d end.
  destruct (find_link_elem element) as [link_elem|]; simpl;
    (split; [by simplify_map_eq |]);
    (split; [by simplify_map_eq |]);
    (split; [by simplify_map_eq |]);
    unfold getitem; simplify_map_eq; simpl;
    do 2 case_bool_decide; first [reflexivity | exfalso; congruence].
Qed.

Lemma startswith_slash_truthy h :
  truthy_str h && startswith "/" h = startswith "/" h.
Proof. by destruct h. Qed.

(** C1, as amended. The extractor always returns, and it returns [None]
    exactly when no element matches the username cue or the stripped text of
    the first match is the sentinel "Unknown"; otherwise the record carries
    that stripped text as its username. A username element whose stripped
    text is empty therefore gives a record, with the empty username. *)
Theorem extract_card_absent_iff_sentinel now element :
  ∃ r, _extract_broadcaster_data now element = Return r ∧
       (r = None ↔
          find username_cue element = None ∨
          ∃ e, find username_cue element = Some e ∧ strip (text e) = "Unknown") ∧
       (∀ e, find username_cue element = Some e → strip (text e) ≠ "Unknown" →
             ∃ d, r = Some d ∧ d !! "username" = Some (VStr (strip (text e)))) ∧
       (∀ e, find username_cue element = Some e → strip (text e) = EmptyString →
             ∃ d, r = Some d ∧ d !! "username" = Some (VStr EmptyString)).
Proof.
  destruct (_extract_broadcaster_data_cases now element)
    as (d & Hname & _ & _ & Hrun).
  rewrite Hrun. eexists. split; [reflexivity |].
  unfold card_username in *.
  destruct (find username_cue element) as [e|].
  - case_bool_decide as Hu.
    + split; [| split].
      * split; [right; eauto | done].
      * intros ? [= <-] ?. done.
      * intros ? [= <-] He. rewrite He in Hu. discriminate Hu.
    + split; [| split].
      * split; [done |]. intros [? | (? & [= <-] & ?)]; done.
      * intros ? [= <-] _. eauto.
      * intros ? [= <-] He. rewrite He in Hname. eauto.
  - rewrite bool_decide_eq_true_2 by done.
    split; [| split]; [split; auto | done | done].
Qed.

(** C1 as the specification states it fails: it counts an empty username as
    unresolvable, and the extractor keeps the card. *)
Lemma blank_username_is_not_dropped :
  ¬ (∀ now element,
       _extract_broadcaster_data now element = Return None ↔
       Spec.resolvable_username element = false).
Proof.
  intros H. destruct (H EmptyString blank_name_card) as [_ H2].
  assert (Spec.resolvable_username blank_name_card = false) as Hspec
    by (vm_compute; reflexivity).
  specialize (H2 Hspec).
  destruct (_extract_broadcaster_data_cases EmptyString blank_name_card)
    as (d & _ & _ & _ & Hrun).
  assert (bool_decide (card_username blank_name_card = "Unknown") = false) as Hu
    by (vm_compute; reflexivity).
  rewrite Hu, H2 in Hrun. discriminate Hrun.
Qed.

(** C6. When the extractor returns a record for a fragment with a link
    element, the record's [profile_url] is the link's href with the site
    origin put in front when the href begins with "/", and the href as it is
    otherwise (nothing, when the link carries neither attribute). *)
Theorem profile_url_resolves_relative_href now element link_elem d :
  _extract_broadcaster_data now element = Return (Some d) →
  find_link_elem element = Some link_elem →
  d !! "profile_url" =
    Some (match link_href link_elem with
          | Some href =>
              VStr (if startswith "/" href
                    then "https://www.tango.me" +:+ href
                    else href)
          | None => VNone
          end).
Proof.
  intros Hrun Hlink.
  destruct (_extract_broadcaster_data_cases now element)
    as (d' & _ & Hurl & _ & Hrun').
  rewrite Hrun in Hrun'. case_bool_decide; [discriminate Hrun' |].
  injection Hrun' as <-.
  rewrite Hurl, Hlink.
  change (Some (resolve_href (link_href link_elem)) = Some
    match link_href link_elem with
    | Some href =>
        VStr (if startswith "/" href then "https://www.tango.me" +:+ href else href)
    | None => VNone
    end).
  f_equal. unfold resolve_href. destruct (link_href link_elem) as [h|]; [| done].
  rewrite startswith_slash_truthy. by destruct (startswith "/" h).
Qed.

Lemma profile_url_resolves_relative_href_witness :
  ∃ d, _extract_broadcaster_data "T" alice_card = Return (Some d) ∧
       d !! "profile_url" = Some (VStr "https://www.tango.me/alice").
Proof.
  destruct (_extract_broadcaster_data_cases "T" alice_card)
    as (d & _ & _ & _ & Hrun).
  assert (bool_decide (card_username alice_card = "Unknown") = false) as Hu
    by (vm_compute; reflexivity).
  rewrite Hu in Hrun.
  assert (find_link_elem alice_card = Some (Tag "a" [] {["href" := "/alice"]} []))
    as Hlink by (vm_compute; reflexivity).
  exists d. split; [exact Hrun |].
  rewrite (profile_url_resolves_relative_href _ _ _ _ Hrun Hlink).
  vm_compute. reflexivity.
Defined.

End Card.

(** ** Properties of the two scans *)

Section ScanLemmas.
Import Py Bs4 TangoScraper Samples.

Variable session_get : string → result string.
Variable BeautifulSoup : string → result node.
Variable clock : nat → string.

Lemma for_each_card_collects broadcaster_elements :
  ∀ tick broadcasters, ∃ added,
    for_each_card clock tick broadcaster_elements broadcasters =
      Return (broadcasters ++ added) ∧
    Forall2 (λ d element,
               (∃ now, _extract_broadcaster_data now element = Return (Some d)) ∧
               d !! "username" = Some (VStr (card_username element)))
            added (List.filter has_username broadcaster_elements).
Proof.
  induction broadcaster_elements as [|element rest IH]; intros tick broadcasters.
  - exists []. split; [by rewrite app_nil_r | constructor].
  - simpl.
    destruct (_extract_broadcaster_data_cases (clock tick) element)
      as (d & Hname & _ & _ & Hrun).
    rewrite Hrun. simpl. unfold has_username.
    case_bool_decide as Hu; simpl.
    + apply IH.
    + assert (truthy_dict d = true) as ->.
      { unfold truthy_dict. rewrite bool_decide_eq_false_2; [done |].
        intros ->. by rewrite lookup_empty in Hname. }
      destruct (IH (S tick) (broadcasters ++ [d])) as (added & Hloop & Hall).
      exists (d :: added). split.
      * rewrite Hloop. by rewrite <- app_assoc.
      * constructor; [| done]. split; [| done].
        by exists (clock tick).
Qed.

Lemma stat_step_returns profile_data stat :
  ∃ profile_data',
    stat_step profile_data stat = Return profile_data' ∧
    ∀ key, key ≠ "followers" → key ≠ "following" →
           profile_data' !! key = profile_data !! key.
Proof.
  unfold stat_step. rewrite _extract_number_normalize. simpl.
  destruct (contains "follower" _); [| destruct (contains "following" _)];
    eexists; (split; [reflexivity |]); intros key ? ?; by simplify_map_eq.
Qed.

Lemma for_each_stat_returns stats_elements :
  ∀ profile_data, ∃ profile_data',
    for_each_stat stats_elements profile_data = Return profile_data' ∧
    ∀ key, key ≠ "followers" → key ≠ "following" →
           profile_data' !! key = profile_data !! key.
Proof.
  induction stats_elements as [|stat rest IH]; intros profile_data; simpl.
  - by eexists.
  - destruct (stat_step_returns profile_data stat) as (pd1 & -> & H1). simpl.
    destruct (IH pd1) as (pd2 & -> & H2).
    eexists. split; [reflexivity |]. intros key ? ?.
    rewrite H2 by done. by apply H1.
Qed.

Lemma stat_step_cases profile_data stat :
  stat_step profile_data stat =
    Return (if follower_stat stat
            then <["followers" := VInt (Spec.normalize (text stat))]> profile_data
            else if following_stat stat
            then <["following" := VInt (Spec.normalize (text stat))]> profile_data
            else profile_data).
Proof.
  unfold stat_step, follower_stat, following_stat.
  rewrite _extract_number_normalize.
  destruct (contains "follower" _); [done |].
  by destruct (contains "following" _).
Qed.

Lemma follower_stat_excludes stat :
  follower_stat stat = true → following_stat stat = false.
Proof. unfold follower_stat, following_stat. by intros ->. Qed.

Lemma bind_Return {A B} (a : A) (f : A → result B) : Return a ≫= f = f a.
Proof. reflexivity. Qed.

Lemma for_each_stat_last stats_elements :
  ∀ profile_data, ∃ profile_data',
    for_each_stat stats_elements profile_data = Return profile_data' ∧
    profile_data' !! "followers" =
      match last (List.filter follower_stat stats_elements) with
      | Some stat => Some (VInt (Spec.normalize (text stat)))
      | None => profile_data !! "followers"
      end ∧
    profile_data' !! "following" =
      match last (List.filter following_stat stats_elements) with
      | Some stat => Some (VInt (Spec.normalize (text stat)))
      | None => profile_data !! "following"
      end.
Proof.
  induction stats_elements as [|stat rest IH]; intros profile_data.
  - by eexists.
  - cbn [for_each_stat List.filter].
    rewrite stat_step_cases, bind_Return.
    destruct (follower_stat stat) eqn:Hfollower.
    + rewrite (follower_stat_excludes _ Hfollower).
      destruct (IH (<["followers" := VInt (Spec.normalize (text stat))]> profile_data))
        as (pd' & -> & Hers & Hing).
      exists pd'. split; [done |]. rewrite last_cons, Hers, Hing. split.
      * destruct (last (List.filter follower_stat rest)); [done |].
        by rewrite lookup_insert_eq.
      * destruct (last (List.filter following_stat rest)); [done |].
        by rewrite lookup_insert_ne.
    + destruct (following_stat stat) eqn:Hfollowing.
      * destruct (IH (<["following" := VInt (Spec.normalize (text stat))]> profile_data))
          as (pd' & -> & Hers & Hing).
        exists pd'. split; [done |]. rewrite last_cons, Hers, Hing. split.
        -- destruct (last (List.filter follower_stat rest)); [done |].
           by rewrite lookup_insert_ne.
        -- destruct (last (List.filter following_stat rest)); [done |].
           by rewrite lookup_insert_eq.
      * destruct (IH profile_data) as (pd' & -> & Hers & Hing).
        by exists pd'.
Qed.

Lemma get_broadcaster_profile_fields tick username html soup :
  session_get (profile_url username) = Return html →
  BeautifulSoup html = Return soup →
  ∃ d,
    get_broadcaster_profile session_get BeautifulSoup clock tick username =
      Return (Some d) ∧
    d !! "followers" = Some (last_count follower_stat (find_all stat_cue soup)) ∧
    d !! "following" = Some (last_count following_stat (find_all stat_cue soup)) ∧
    d !! "is_verified" = Some (VBool false) ∧
    d !! "last_seen" = Some (VStr EmptyString) ∧
    d !! "profile_image" =
      Some (match find avatar_cue soup with
            | Some e => of_optional (get "src" e)
            | None => VStr EmptyString
            end).
Proof.
  intros Hfetch Hparse. unfold get_broadcaster_profile.
  fold (profile_url username). rewrite Hfetch, bind_Return, Hparse, bind_Return.
  match goal with |- context [for_each_stat _ ?pd] =>
    destruct (for_each_stat_returns (find_all stat_cue soup) pd)
      as (pd1 & Hloop & Hkeep);
    destruct (for_each_stat_last (find_all stat_cue soup) pd)
      as (pd2 & Hloop2 & Hers & Hing)
  end.
  rewrite Hloop in Hloop2. injection Hloop2 as <-.
  rewrite Hloop, bind_Return. unfold last_count.
  eexists. split; [reflexivity |].
  assert (pd1 !! "is_verified" = Some (VBool false)) as Hv
    by (by rewrite Hkeep by done).
  assert (pd1 !! "last_seen" = Some (VStr EmptyString)) as Hs
    by (by rewrite Hkeep by done).
  assert (pd1 !! "profile_image" = Some (VStr EmptyString)) as Hi
    by (by rewrite Hkeep by done).
  destruct (find bio_cue soup), (find avatar_cue soup);
    repeat split; simplify_map_eq; try done;
    by repeat case_match.
Qed.

End ScanLemmas.

Section Scanning.
Import Py Bs4 TangoScraper Samples.

Variable session_get : string → result string.
Variable BeautifulSoup : string → result node.
Variable clock : nat → string.

(** C2. Neither scan lets an exception out: each always returns, and when
    the fetch or the parse raises, the directory scan returns the empty list
    and the profile scan returns [None]. *)
Theorem scans_never_raise tick username :
  (∃ records,
     get_live_broadcasters session_get BeautifulSoup clock tick = Return records) ∧
  (∃ profile,
     get_broadcaster_profile session_get BeautifulSoup clock tick username =
       Return profile) ∧
  (raises (session_get live_url ≫= BeautifulSoup) →
     get_live_broadcasters session_get BeautifulSoup clock tick = Return []) ∧
  (raises (session_get (profile_url username) ≫= BeautifulSoup) →
     get_broadcaster_profile session_get BeautifulSoup clock tick username =
       Return None).
Proof.
  unfold get_live_broadcasters, get_broadcaster_profile, raises.
  fold live_url. fold (profile_url username).
  repeat split.
  - destruct (session_get live_url) as [html|e]; [| by eexists].
    rewrite bind_Return.
    destruct (BeautifulSoup html) as [soup|e]; [| by eexists].
    rewrite bind_Return.
    destruct (for_each_card_collects clock (find_all card_cue soup) tick [])
      as (added & -> & _).
    by eexists.
  - destruct (session_get (profile_url username)) as [html|e]; [| by eexists].
    rewrite bind_Return.
    destruct (BeautifulSoup html) as [soup|e]; [| by eexists].
    rewrite bind_Return.
    match goal with |- context [for_each_stat _ ?pd] =>
      destruct (for_each_stat_returns (find_all stat_cue soup) pd)
        as (pd1 & -> & _)
    end.
    by eexists.
  - intros [e He].
    destruct (session_get live_url) as [html|e']; [| done].
    rewrite bind_Return. change (BeautifulSoup html = Raise e) in He.
    by rewrite He.
  - intros [e He].
    destruct (session_get (profile_url username)) as [html|e']; [| done].
    rewrite bind_Return. change (BeautifulSoup html = Raise e) in He.
    by rewrite He.
Qed.

Lemma Forall2_usernames (records : list dict) (elements : list node) :
  Forall2 (λ d element,
             (∃ now, _extract_broadcaster_data now element = Return (Some d)) ∧
             d !! "username" = Some (VStr (card_username element)))
          records elements →
  (λ d : dict, d !! "username") <$> records =
    (λ element, Some (VStr (card_username element))) <$> elements.
Proof.
  induction 1 as [|d element records elements [_ Hname] _ IH]; [done |].
  cbn [fmap list_fmap]. by rewrite Hname, IH.
Qed.

Lemma get_live_broadcasters_success tick html soup :
  session_get live_url = Return html →
  BeautifulSoup html = Return soup →
  ∃ records,
    get_live_broadcasters session_get BeautifulSoup clock tick = Return records ∧
    Forall2 (λ d element,
               (∃ now, _extract_broadcaster_data now element = Return (Some d)) ∧
               d !! "username" = Some (VStr (card_username element)))
            records (List.filter has_username (find_all card_cue soup)).
Proof.
  intros Hfetch Hparse. unfold get_live_broadcasters. fold live_url.
  rewrite Hfetch, bind_Return, Hparse, bind_Return.
  destruct (for_each_card_collects clock (find_all card_cue soup) tick [])
    as (added & -> & Hall).
  by exists added.
Qed.

(** C3, as amended. On a fetched and parsed listing page the scan returns
    one record for each matched fragment whose username is not the sentinel
    "Unknown" (an empty username counts), no other record, and in the
    document order of those fragments: the [i]-th record is the extraction of
    the [i]-th such fragment and carries its username. *)
Theorem get_live_broadcasters_in_document_order tick html soup :
  session_get live_url = Return html →
  BeautifulSoup html = Return soup →
  ∃ records,
    get_live_broadcasters session_get BeautifulSoup clock tick = Return records ∧
    length records = length (List.filter has_username (find_all card_cue soup)) ∧
    Forall2 (λ d element,
               ∃ now, _extract_broadcaster_data now element = Return (Some d))
            records (List.filter has_username (find_all card_cue soup)) ∧
    (λ d : dict, d !! "username") <$> records =
      (λ element, Some (VStr (card_username element)))
        <$> List.filter has_username (find_all card_cue soup).
Proof.
  intros Hfetch Hparse.
  destruct (get_live_broadcasters_success tick html soup Hfetch Hparse)
    as (records & Hrun & Hall).
  exists records. split; [done |].
  split; [by eapply Forall2_length |].
  split; [| by apply Forall2_usernames].
  eapply Forall2_impl; [exact Hall |]. by intros d element [? _].
Qed.

(** C7, as amended. Each stat element is classified by its lower-cased
    text: one that contains "follower" sets [followers], one that contains
    "following" and not "follower" sets [following], each to the normalised
    count of the element's own text. On a fetched page the record therefore
    holds, for each field, the count of the last element of its class in
    document order, or 0. *)
Theorem profile_stats_classified_by_text tick username html soup :
  session_get (profile_url username) = Return html →
  BeautifulSoup html = Return soup →
  (∀ profile_data stat, ∃ n profile_data',
      _extract_number (text stat) = Return n ∧
      stat_step profile_data stat = Return profile_data' ∧
      (follower_stat stat = true → profile_data' !! "followers" = Some (VInt n)) ∧
      (following_stat stat = true → profile_data' !! "following" = Some (VInt n))) ∧
  ∃ d,
    get_broadcaster_profile session_get BeautifulSoup clock tick username =
      Return (Some d) ∧
    d !! "followers" = Some (last_count follower_stat (find_all stat_cue soup)) ∧
    d !! "following" = Some (last_count following_stat (find_all stat_cue soup)) ∧
    ∃ bob,
      get_broadcaster_profile fetched (served bob_page) wall_clock 0 "bob" =
        Return (Some bob) ∧
      bob !! "followers" = Some (VInt 1500) ∧
      bob !! "following" = Some (VInt 300).
Proof.
  intros Hfetch Hparse. split.
  - intros profile_data stat.
    exists (Spec.normalize (text stat)). eexists.
    split; [apply _extract_number_normalize |].
    split; [apply stat_step_cases |].
    split.
    + intros ->. by rewrite lookup_insert_eq.
    + intros Hing. rewrite Hing.
      destruct (follower_stat stat) eqn:Hers.
      * by rewrite (follower_stat_excludes _ Hers) in Hing.
      * by rewrite lookup_insert_eq.
  - destruct (get_broadcaster_profile_fields session_get BeautifulSoup clock
              tick username html soup Hfetch Hparse)
      as (d & ? & ? & ? & _).
    exists d. do 3 (split; [done |]).
    destruct (get_broadcaster_profile_fields fetched (served bob_page)
                wall_clock 0 "bob" "<html>" bob_page eq_refl eq_refl)
      as (bob & Hrun & Hers & Hing & _).
    exists bob. split; [done |].
    rewrite Hers, Hing. split; vm_compute; reflexivity.
Qed.

(** C8, as amended. On a fetched page [profile_image] is the empty string
    when no element matches the avatar cue; when one does it is that
    element's [src] attribute: a string if the attribute is there, [None] if
    the element has no [src]. *)
Theorem profile_image_is_avatar_src tick username html soup :
  session_get (profile_url username) = Return html →
  BeautifulSoup html = Return soup →
  ∃ d,
    get_broadcaster_profile session_get BeautifulSoup clock tick username =
      Return (Some d) ∧
    d !! "profile_image" =
      Some (match find avatar_cue soup with
            | None => VStr EmptyString
            | Some img_elem =>
                match get "src" img_elem with
                | Some src => VStr src
                | None => VNone
                end
            end).
Proof.
  intros Hfetch Hparse.
  destruct (get_broadcaster_profile_fields session_get BeautifulSoup clock
              tick username html soup Hfetch Hparse)
    as (d & ? & _ & _ & _ & _ & Himg).
  exists d. split; [done |]. rewrite Himg.
  by destruct (find avatar_cue soup).
Qed.

(** C9. On a fetched page the record always has [is_verified] false and
    [last_seen] empty. *)
Theorem profile_flags_stay_default tick username html soup :
  session_get (profile_url username) = Return html →
  BeautifulSoup html = Return soup →
  ∃ d,
    get_broadcaster_profile session_get BeautifulSoup clock tick username =
      Return (Some d) ∧
    d !! "is_verified" = Some (VBool false) ∧
    d !! "last_seen" = Some (VStr EmptyString).
Proof.
  intros Hfetch Hparse.
  destruct (get_broadcaster_profile_fields session_get BeautifulSoup clock
              tick username html soup Hfetch Hparse)
    as (d & ? & _ & _ & ? & ? & _).
  by exists d.
Qed.

End Scanning.


(** ** The theorems at sample pages, and the claims that fail *)

Section Instances.
Import Py Bs4 TangoScraper Samples.

Lemma scans_never_raise_witness :
  get_live_broadcasters unreachable (served listing_page) wall_clock 0 = Return [] ∧
  get_broadcaster_profile unreachable (served bob_page) wall_clock 0 "bob" =
    Return None.
Proof.
  destruct (scans_never_raise unreachable (served listing_page) wall_clock 0 "bob")
    as (_ & _ & Hlive & _).
  destruct (scans_never_raise unreachable (served bob_page) wall_clock 0 "bob")
    as (_ & _ & _ & Hprofile).
  split.
  - apply Hlive. by eexists.
  - apply Hprofile. by eexists.
Defined.

Lemma get_live_broadcasters_in_document_order_witness :
  ∃ records,
    get_live_broadcasters fetched (served listing_page) wall_clock 0 =
      Return records ∧
    length records = 3%nat ∧
    (λ d : dict, d !! "username") <$> records =
      [Some (VStr "alice"); Some (VStr "carol"); Some (VStr EmptyString)].
Proof.
  destruct (get_live_broadcasters_in_document_order
              fetched (served listing_page) wall_clock 0 "<html>" listing_page
              eq_refl eq_refl)
    as (records & Hrun & Hlen & _ & Hnames).
  exists records. split; [exact Hrun |].
  rewrite Hlen, Hnames. split; vm_compute; reflexivity.
Defined.

(** C3 as the specification states it fails: a card whose username element
    is blank is not resolvable in its sense, and the scan returns it. *)
Lemma blank_username_card_is_listed :
  ¬ (∀ (session_get : string → result string)
       (BeautifulSoup : string → result node) (clock : nat → string)
       tick html soup,
       session_get live_url = Return html →
       BeautifulSoup html = Return soup →
       ∃ records,
         get_live_broadcasters session_get BeautifulSoup clock tick =
           Return records ∧
         length records =
           length (List.filter Spec.resolvable_username (find_all card_cue soup))).
Proof.
  intros H.
  destruct (H fetched (served blank_listing) wall_clock O "<html>" blank_listing
              eq_refl eq_refl) as (records & Hrun & Hlen).
  destruct (get_live_broadcasters_success
              fetched (served blank_listing) wall_clock O "<html>" blank_listing
              eq_refl eq_refl) as (records' & Hrun' & Hall).
  rewrite Hrun in Hrun'. injection Hrun' as <-.
  apply Forall2_length in Hall. rewrite Hlen in Hall.
  vm_compute in Hall. discriminate Hall.
Qed.

Lemma profile_stats_classified_by_text_witness :
  ∃ d,
    get_broadcaster_profile fetched (served bob_page) wall_clock 0 "bob" =
      Return (Some d) ∧
    d !! "followers" = Some (VInt 1500) ∧
    d !! "following" = Some (VInt 300).
Proof.
  destruct (profile_stats_classified_by_text
              fetched (served bob_page) wall_clock 0 "bob" "<html>" bob_page
              eq_refl eq_refl)
    as (_ & d & Hrun & Hers & Hing & _).
  exists d. split; [exact Hrun |].
  rewrite Hers, Hing. split; vm_compute; reflexivity.
Defined.

(** C7 as the specification states it fails: an element whose text has both
    words would set [following] too, and it sets [followers] alone. *)
Lemma stat_with_both_words_leaves_following :
  ¬ (∀ (profile_data : dict) stat, ∃ n profile_data',
       _extract_number (text stat) = Return n ∧
       stat_step profile_data stat = Return profile_data' ∧
       (contains "follower" (lower (text stat)) = true →
        profile_data' !! "followers" = Some (VInt n)) ∧
       (contains "following" (lower (text stat)) = true →
        profile_data' !! "following" = Some (VInt n))).
Proof.
  intros H.
  destruct (H {["following" := VInt 0]} both_words_stat)
    as (n & pd' & Hn & Hstep & _ & Hing).
  assert (contains "following" (lower (text both_words_stat)) = true) as Hboth
    by (vm_compute; reflexivity).
  specialize (Hing Hboth).
  rewrite _extract_number_normalize in Hn. injection Hn as <-.
  rewrite stat_step_cases in Hstep.
  assert (follower_stat both_words_stat = true) as Hers
    by (vm_compute; reflexivity).
  rewrite Hers in Hstep. injection Hstep as <-.
  rewrite lookup_insert_ne in Hing by done.
  rewrite lookup_singleton_eq in Hing.
  injection Hing as Hing. vm_compute in Hing. discriminate Hing.
Qed.

Lemma profile_image_is_avatar_src_witness :
  ∃ d,
    get_broadcaster_profile fetched (served bob_page) wall_clock 0 "bob" =
      Return (Some d) ∧
    d !! "profile_image" = Some (VStr "https://cdn.example.org/bob.png").
Proof.
  destruct (profile_image_is_avatar_src
              fetched (served bob_page) wall_clock 0 "bob" "<html>" bob_page
              eq_refl eq_refl)
    as (d & Hrun & Himg).
  exists d. split; [exact Hrun |]. rewrite Himg. vm_compute. reflexivity.
Defined.

(** C8 as the specification states it fails: an avatar element without a
    [src] attribute leaves [None] in the field, which is not a string. *)
Lemma avatar_without_src_gives_none :
  ¬ (∀ (session_get : string → result string)
       (BeautifulSoup : string → result node) (clock : nat → string)
       tick username html soup,
       session_get (profile_url username) = Return html →
       BeautifulSoup html = Return soup →
       ∃ d url,
         get_broadcaster_profile session_get BeautifulSoup clock tick username =
           Return (Some d) ∧
         d !! "profile_image" = Some (VStr url) ∧
         (find avatar_cue soup = None → url = EmptyString)).
Proof.
  intros H.
  destruct (H fetched (served no_src_page) wall_clock O "bob" "<html>" no_src_page
              eq_refl eq_refl) as (d & url & Hrun & Himg & _).
  destruct (get_broadcaster_profile_fields
              fetched (served no_src_page) wall_clock O "bob" "<html>" no_src_page
              eq_refl eq_refl) as (d' & Hrun' & _ & _ & _ & _ & Himg').
  rewrite Hrun in Hrun'. injection Hrun' as <-.
  rewrite Himg in Himg'. vm_compute in Himg'. discriminate Himg'.
Qed.

Lemma profile_flags_stay_default_witness :
  ∃ d,
    get_broadcaster_profile fetched (served bob_page) wall_clock 0 "bob" =
      Return (Some d) ∧
    d !! "is_verified" = Some (VBool false) ∧
    d !! "last_seen" = Some (VStr EmptyString).
Proof.
  exact (profile_flags_stay_default
           fetched (served bob_page) wall_clock 0 "bob" "<html>" bob_page
           eq_refl eq_refl).
Defined.


End Instances.

(** ** The records, field by field *)

Section RecordLemmas.
Import Py Bs4 TangoScraper Samples.

Lemma _extract_broadcaster_data_record now element :
  _extract_broadcaster_data now element =
    Return (if bool_decide (card_username element = "Unknown") then None
            else Some (card_record now element)).
Proof.
  unfold _extract_broadcaster_data, card_record.
  rewrite _extract_number_normalize. simpl.
  fold (card_username element).
  destruct (find_link_elem element) as [link_elem|]; simpl;
    unfold getitem; simplify_map_eq; simpl;
    do 2 case_bool_decide; first [reflexivity | exfalso; congruence].
Qed.

Lemma card_record_truthy now element : truthy_dict (card_record now element) = true.
Proof.
  unfold truthy_dict. rewrite bool_decide_eq_false_2; [done |].
  intros Hempty.
  assert (card_record now element !! "is_live" = Some (VBool true)) as Hlive
    by (unfold card_record; by simplify_map_eq).
  by rewrite Hempty, lookup_empty in Hlive.
Qed.

Lemma for_each_card_records clock broadcaster_elements :
  ∀ tick broadcasters,
    for_each_card clock tick broadcaster_elements broadcasters =
      Return (broadcasters ++ card_records clock tick broadcaster_elements).
Proof.
  induction broadcaster_elements as [|element rest IH]; intros tick broadcasters.
  - cbn [for_each_card card_records]. by rewrite app_nil_r.
  - cbn [for_each_card card_records].
    rewrite _extract_broadcaster_data_record, bind_Return.
    unfold has_username. case_bool_decide; cbn [negb].
    + by rewrite IH.
    + rewrite card_record_truthy, IH. by rewrite <- app_assoc.
Qed.

Lemma for_each_stat_fold stats_elements :
  ∀ profile_data,
    for_each_stat stats_elements profile_data =
      Return (fold_left apply_stat stats_elements profile_data).
Proof.
  induction stats_elements as [|stat rest IH]; intros profile_data; [done |].
  cbn [for_each_stat fold_left]. rewrite stat_step_cases, bind_Return.
  by rewrite IH.
Qed.

Lemma get_live_broadcasters_records
    (session_get : string → result string) (BeautifulSoup : string → result node)
    clock tick html soup :
  session_get live_url = Return html →
  BeautifulSoup html = Return soup →
  get_live_broadcasters session_get BeautifulSoup clock tick =
    Return (card_records clock tick (find_all card_cue soup)).
Proof.
  intros Hfetch Hparse. unfold get_live_broadcasters. fold live_url.
  rewrite Hfetch, bind_Return, Hparse, bind_Return.
  by rewrite for_each_card_records.
Qed.

Lemma get_broadcaster_profile_record
    (session_get : string → result string) (BeautifulSoup : string → result node)
    clock tick username html soup :
  session_get (profile_url username) = Return html →
  BeautifulSoup html = Return soup →
  get_broadcaster_profile session_get BeautifulSoup clock tick username =
    Return (Some (profile_record (clock tick) username soup)).
Proof.
  intros Hfetch Hparse. unfold get_broadcaster_profile, profile_record.
  fold (profile_url username).
  rewrite Hfetch, bind_Return, Hparse, bind_Return.
  by rewrite for_each_stat_fold, bind_Return.
Qed.

End RecordLemmas.

(** ** What every card record holds *)

Section CardRecords.
Import Py Bs4 TangoScraper Samples.

Lemma extract_card_Some now element d :
  _extract_broadcaster_data now element = Return (Some d) →
  d = card_record now element ∧ card_username element ≠ "Unknown".
Proof.
  rewrite _extract_broadcaster_data_record.
  case_bool_decide; [discriminate |]. by intros [= <-].
Qed.

Lemma card_record_lookup now element :
  card_record now element !! "is_live" = Some (VBool true) ∧
  card_record now element !! "timestamp" = Some (VStr now) ∧
  card_record now element !! "username" = Some (VStr (card_username element)) ∧
  card_record now element !! "viewers" =
    Some (VInt (Spec.normalize
                  (match find viewers_cue element with
                   | Some e => text e
                   | None => "0"
                   end))) ∧
  card_record now element !! "title" =
    Some (VStr (match find title_cue element with
                | Some e => strip (text e)
                | None => EmptyString
                end)) ∧
  card_record now element !! "profile_image" =
    Some (match find (named ["img"]) element with
          | Some e => of_optional (get "src" e)
          | None => VNone
          end) ∧
  card_record now element !! "profile_url" =
    (λ link_elem, resolve_href (link_href link_elem)) <$> find_link_elem element.
Proof.
  unfold card_record.
  destruct (find_link_elem element); repeat split; by simplify_map_eq.
Qed.

(** X1. A record the extractor returns always has [is_live] true, the
    timestamp of the call, a username that is a string other than the
    sentinel, a viewer count that is an integer not below zero, a title that
    is a string, and a [profile_image] that is a string or [None]. *)
Theorem card_fields_always_set now element d :
  _extract_broadcaster_data now element = Return (Some d) →
  d !! "is_live" = Some (VBool true) ∧
  d !! "timestamp" = Some (VStr now) ∧
  (∃ username, d !! "username" = Some (VStr username) ∧ username ≠ "Unknown") ∧
  (∃ viewers, d !! "viewers" = Some (VInt viewers) ∧ 0 ≤ viewers) ∧
  (∃ title, d !! "title" = Some (VStr title)) ∧
  (∃ src, d !! "profile_image" = Some (of_optional src)).
Proof.
  intros [-> Hu]%extract_card_Some.
  destruct (card_record_lookup now element)
    as (Hlive & Hts & Hname & Hviewers & Htitle & Himg & _).
  do 2 (split; [done |]).
  split; [by eexists |].
  split; [eexists; split; [exact Hviewers | apply normalize_not_negative] |].
  split; [by eexists |].
  rewrite Himg. destruct (find (named ["img"]) element) as [e|].
  - by exists (get "src" e).
  - by exists None.
Qed.

Lemma card_fields_always_set_witness :
  ∃ d, _extract_broadcaster_data "T" alice_card = Return (Some d) ∧
       d !! "is_live" = Some (VBool true) ∧
       d !! "timestamp" = Some (VStr "T").
Proof.
  exists (card_record "T" alice_card).
  assert (_extract_broadcaster_data "T" alice_card =
            Return (Some (card_record "T" alice_card))) as Hrun.
  { rewrite _extract_broadcaster_data_record.
    assert (bool_decide (card_username alice_card = "Unknown") = false) as Hu
      by (vm_compute; reflexivity).
    by rewrite Hu. }
  split; [exact Hrun |].
  destruct (card_fields_always_set "T" alice_card _ Hrun) as (Hlive & Hts & _).
  by split.
Defined.

(** X2. The key [profile_url] is set only when the fragment has a link
    element: a record lacks the key exactly when the fragment has neither an
    anchor nor a [div] or [span] with a [data-href] attribute. *)
Theorem profile_url_key_needs_link now element d :
  _extract_broadcaster_data now element = Return (Some d) →
  (d !! "profile_url" = None ↔ find_link_elem element = None).
Proof.
  intros [-> _]%extract_card_Some.
  destruct (card_record_lookup now element) as (_ & _ & _ & _ & _ & _ & ->).
  by destruct (find_link_elem element).
Qed.

(** X3. An anchor always wins: when the fragment holds an anchor, the
    [data-href] containers are not consulted, so an anchor that carries
    neither [href] nor [data-href] leaves [profile_url] set to [None]. *)
Theorem anchor_shadows_data_href now element d a :
  _extract_broadcaster_data now element = Return (Some d) →
  find (named ["a"]) element = Some a →
  d !! "profile_url" = Some (resolve_href (link_href a)) ∧
  (get "href" a = None → get "data-href" a = None →
   d !! "profile_url" = Some VNone).
Proof.
  intros [-> _]%extract_card_Some Ha.
  destruct (card_record_lookup now element) as (_ & _ & _ & _ & _ & _ & ->).
  unfold find_link_elem. rewrite Ha. cbn [fmap option_fmap option_map].
  split; [done |].
  intros Hhref Hdata. unfold link_href. by rewrite Hhref, Hdata.
Qed.

(** X4. A fragment that has a username and nothing else gives the
    defaults: no viewers element gives 0 viewers, no title element the empty
    title, no image [None]. *)
Theorem card_defaults now element d :
  _extract_broadcaster_data now element = Return (Some d) →
  (find viewers_cue element = None → d !! "viewers" = Some (VInt 0)) ∧
  (find title_cue element = None → d !! "title" = Some (VStr EmptyString)) ∧
  (find (named ["img"]) element = None → d !! "profile_image" = Some VNone).
Proof.
  intros [-> _]%extract_card_Some.
  destruct (card_record_lookup now element)
    as (_ & _ & _ & Hviewers & Htitle & Himg & _).
  repeat split; intros Hnone.
  - rewrite Hviewers, Hnone. by vm_compute.
  - by rewrite Htitle, Hnone.
  - by rewrite Himg, Hnone.
Qed.

Lemma sample_card_runs now element :
  bool_decide (card_username element = "Unknown") = false →
  _extract_broadcaster_data now element = Return (Some (card_record now element)).
Proof. intros Hu. by rewrite _extract_broadcaster_data_record, Hu. Qed.

Lemma profile_url_key_needs_link_witness :
  card_record "T" name_only_card !! "profile_url" = None ↔
  find_link_elem name_only_card = None.
Proof.
  apply (profile_url_key_needs_link "T" name_only_card).
  apply sample_card_runs. vm_compute. reflexivity.
Defined.

Lemma anchor_shadows_data_href_witness :
  card_record "T" bare_anchor_card !! "profile_url" = Some VNone.
Proof.
  refine (proj2 (anchor_shadows_data_href "T" bare_anchor_card _
                   (Tag "a" [] ∅ [NavigableString "profile"]) _ _) _ _).
  - apply sample_card_runs. vm_compute. reflexivity.
  - vm_compute. reflexivity.
  - vm_compute. reflexivity.
  - vm_compute. reflexivity.
Defined.

Lemma card_defaults_witness :
  card_record "T" name_only_card !! "viewers" = Some (VInt 0) ∧
  card_record "T" name_only_card !! "title" = Some (VStr EmptyString) ∧
  card_record "T" name_only_card !! "profile_image" = Some VNone.
Proof.
  assert (_extract_broadcaster_data "T" name_only_card =
            Return (Some (card_record "T" name_only_card))) as Hrun
    by (apply sample_card_runs; vm_compute; reflexivity).
  destruct (card_defaults "T" name_only_card _ Hrun) as (Hv & Ht & Hi).
  split; [apply Hv | split; [apply Ht | apply Hi]]; vm_compute; reflexivity.
Defined.

End CardRecords.

(** ** What the directory scan returns *)

Section LiveRecords.
Import Py Bs4 TangoScraper Samples.

Variable session_get : string → result string.
Variable BeautifulSoup : string → result node.

Lemma card_records_listed clock broadcaster_elements :
  ∀ tick, Forall listed (card_records clock tick broadcaster_elements).
Proof.
  induction broadcaster_elements as [|element rest IH]; intros tick;
    cbn [card_records]; [constructor |].
  apply Forall_app. split; [| apply IH].
  unfold has_username. case_bool_decide as Hu; cbn [negb]; [constructor |].
  constructor; [| constructor].
  destruct (card_record_lookup (clock tick) element)
    as (Hlive & Hts & Hname & Hviewers & _).
  split; [done |].
  split; [by eexists |].
  split; [eexists; split; [exact Hviewers | apply normalize_not_negative] |].
  by eexists.
Qed.

Lemma get_live_broadcasters_cases clock tick :
  get_live_broadcasters session_get BeautifulSoup clock tick = Return [] ∨
  ∃ html soup,
    session_get live_url = Return html ∧ BeautifulSoup html = Return soup ∧
    get_live_broadcasters session_get BeautifulSoup clock tick =
      Return (card_records clock tick (find_all card_cue soup)).
Proof.
  destruct (session_get live_url) as [html|e] eqn:Hfetch.
  - destruct (BeautifulSoup html) as [soup|e] eqn:Hparse.
    + right. exists html, soup. do 2 (split; [done |]).
      by apply (get_live_broadcasters_records _ _ _ _ html soup).
    + left. unfold get_live_broadcasters. fold live_url.
      by rewrite Hfetch, bind_Return, Hparse.
  - left. unfold get_live_broadcasters. fold live_url. by rewrite Hfetch.
Qed.

(** X5. Whatever the site answers, every record the directory scan returns
    is live, has a username that is not the sentinel, a viewer count that is
    an integer not below zero, and a timestamp. *)
Theorem get_live_broadcasters_records_listed clock tick :
  ∃ records,
    get_live_broadcasters session_get BeautifulSoup clock tick = Return records ∧
    Forall listed records.
Proof.
  destruct (get_live_broadcasters_cases clock tick)
    as [-> | (html & soup & _ & _ & ->)].
  - by exists [].
  - eexists. split; [reflexivity |]. apply card_records_listed.
Qed.

Lemma card_record_without_timestamp now1 now2 element :
  delete "timestamp" (card_record now1 element) =
  delete "timestamp" (card_record now2 element).
Proof.
  unfold card_record.
  by rewrite !(delete_insert_ne _ "timestamp" "is_live"), !delete_insert_eq by done.
Qed.

Lemma card_records_without_timestamp clock1 clock2 broadcaster_elements :
  ∀ tick1 tick2,
    delete "timestamp" <$> card_records clock1 tick1 broadcaster_elements =
    delete "timestamp" <$> card_records clock2 tick2 broadcaster_elements.
Proof.
  induction broadcaster_elements as [|element rest IH]; intros tick1 tick2;
    cbn [card_records]; [done |].
  rewrite !fmap_app, (IH (S tick1) (S tick2)). f_equal.
  destruct (has_username element); [| done].
  cbn [fmap list_fmap].
  by rewrite (card_record_without_timestamp (clock1 tick1) (clock2 tick2)).
Qed.

(** X6. Two directory scans of an unchanged page, made at any two times,
    return the same records apart from the timestamps. *)
Theorem get_live_broadcasters_repeatable clock1 clock2 tick1 tick2 :
  ∃ records1 records2,
    get_live_broadcasters session_get BeautifulSoup clock1 tick1 = Return records1 ∧
    get_live_broadcasters session_get BeautifulSoup clock2 tick2 = Return records2 ∧
    delete "timestamp" <$> records1 = delete "timestamp" <$> records2.
Proof.
  unfold get_live_broadcasters. fold live_url.
  destruct (session_get live_url) as [html|e]; [| by exists [], []].
  rewrite !bind_Return.
  destruct (BeautifulSoup html) as [soup|e]; [| by exists [], []].
  rewrite !bind_Return, !for_each_card_records.
  do 2 eexists. do 2 (split; [reflexivity |]).
  apply card_records_without_timestamp.
Qed.

End LiveRecords.

(** ** What the profile scan returns *)

Section ProfileRecords.
Import Py Bs4 TangoScraper Samples.

Variable session_get : string → result string.
Variable BeautifulSoup : string → result node.
Variable clock : nat → string.

Lemma apply_stat_dom profile_data stat :
  "followers" ∈ dom profile_data → "following" ∈ dom profile_data →
  dom (apply_stat profile_data stat) = dom profile_data.
Proof.
  intros Hers%elem_of_dom Hing%elem_of_dom. unfold apply_stat.
  destruct (follower_stat stat); [by apply dom_insert_lookup_L |].
  destruct (following_stat stat); [by apply dom_insert_lookup_L | done].
Qed.

Lemma apply_stat_other profile_data stat key :
  key ≠ "followers" → key ≠ "following" →
  apply_stat profile_data stat !! key = profile_data !! key.
Proof.
  intros ? ?. unfold apply_stat.
  destruct (follower_stat stat); [by rewrite lookup_insert_ne |].
  destruct (following_stat stat); [by rewrite lookup_insert_ne | done].
Qed.

Lemma fold_apply_stat_dom stats_elements :
  ∀ profile_data,
    "followers" ∈ dom profile_data → "following" ∈ dom profile_data →
    dom (fold_left apply_stat stats_elements profile_data) = dom profile_data.
Proof.
  induction stats_elements as [|stat rest IH]; intros profile_data Hers Hing;
    [done |].
  cbn [fold_left]. rewrite IH; rewrite ?apply_stat_dom; done.
Qed.

Lemma fold_apply_stat_other stats_elements key :
  key ≠ "followers" → key ≠ "following" →
  ∀ profile_data,
    fold_left apply_stat stats_elements profile_data !! key = profile_data !! key.
Proof.
  intros ? ?. induction stats_elements as [|stat rest IH]; intros profile_data;
    [done |].
  cbn [fold_left]. by rewrite IH, apply_stat_other.
Qed.

Lemma profile_record_dom now username soup :
  dom (profile_record now username soup) = profile_keys.
Proof.
  unfold profile_record.
  match goal with |- context [fold_left apply_stat ?stats ?pd] =>
    assert (dom (fold_left apply_stat stats pd) = profile_keys) as Hdom
  end.
  { rewrite fold_apply_stat_dom.
    - rewrite !dom_insert_L, dom_empty_L. unfold profile_keys. set_solver.
    - rewrite !dom_insert_L. set_solver.
    - rewrite !dom_insert_L. set_solver. }
  destruct (find bio_cue soup), (find avatar_cue soup);
    rewrite ?dom_insert_L, Hdom; unfold profile_keys; set_solver.
Qed.

Lemma profile_record_lookup now username soup :
  profile_record now username soup !! "username" = Some (VStr username) ∧
  profile_record now username soup !! "total_streams" = Some (VInt 0) ∧
  profile_record now username soup !! "timestamp" = Some (VStr now) ∧
  profile_record now username soup !! "bio" =
    Some (VStr (match find bio_cue soup with
                | Some e => strip (text e)
                | None => EmptyString
                end)).
Proof.
  unfold profile_record.
  destruct (find bio_cue soup), (find avatar_cue soup);
    repeat split; simplify_map_eq;
    rewrite ?fold_apply_stat_other by done; by simplify_map_eq.
Qed.

(** X7. A returned profile record has exactly the nine keys it was seeded
    with, so no read of one of them can miss; its username is the one asked
    for, its timestamp the reading of the call, its bio the stripped text of
    the first bio element or empty, and [total_streams] is always 0, no rule
    filling it. *)
Theorem get_broadcaster_profile_shape tick username html soup :
  session_get (profile_url username) = Return html →
  BeautifulSoup html = Return soup →
  ∃ d,
    get_broadcaster_profile session_get BeautifulSoup clock tick username =
      Return (Some d) ∧
    dom d = profile_keys ∧
    d !! "username" = Some (VStr username) ∧
    d !! "total_streams" = Some (VInt 0) ∧
    d !! "timestamp" = Some (VStr (clock tick)) ∧
    d !! "bio" =
      Some (VStr (match find bio_cue soup with
                  | Some e => strip (text e)
                  | None => EmptyString
                  end)).
Proof.
  intros Hfetch Hparse. eexists.
  split; [by apply (get_broadcaster_profile_record _ _ _ _ _ html soup) |].
  split; [apply profile_record_dom | apply profile_record_lookup].
Qed.

(** X8. In a returned profile record [followers] and [following] are
    integers not below zero. *)
Theorem profile_counts_not_negative tick username html soup :
  session_get (profile_url username) = Return html →
  BeautifulSoup html = Return soup →
  ∃ d followers following,
    get_broadcaster_profile session_get BeautifulSoup clock tick username =
      Return (Some d) ∧
    d !! "followers" = Some (VInt followers) ∧ 0 ≤ followers ∧
    d !! "following" = Some (VInt following) ∧ 0 ≤ following.
Proof.
  intros Hfetch Hparse.
  destruct (get_broadcaster_profile_fields session_get BeautifulSoup clock
              tick username html soup Hfetch Hparse)
    as (d & Hrun & Hers & Hing & _).
  unfold last_count in Hers, Hing.
  exists d.
  destruct (last (List.filter follower_stat _)) as [s1|],
           (last (List.filter following_stat _)) as [s2|];
    do 2 eexists; (split; [exact Hrun |]);
    (split; [exact Hers |]); (split; [| split; [exact Hing |]]);
    first [apply normalize_not_negative | done].
Qed.

Lemma apply_stat_timestamp profile_data stat v :
  apply_stat (<["timestamp" := v]> profile_data) stat =
  <["timestamp" := v]> (apply_stat profile_data stat).
Proof.
  unfold apply_stat.
  destruct (follower_stat stat); [by rewrite insert_insert_ne |].
  destruct (following_stat stat); [by rewrite insert_insert_ne | done].
Qed.

Lemma fold_apply_stat_timestamp stats_elements v :
  ∀ profile_data,
    fold_left apply_stat stats_elements (<["timestamp" := v]> profile_data) =
    <["timestamp" := v]> (fold_left apply_stat stats_elements profile_data).
Proof.
  induction stats_elements as [|stat rest IH]; intros profile_data; [done |].
  cbn [fold_left]. by rewrite apply_stat_timestamp, IH.
Qed.

Lemma profile_record_without_timestamp now1 now2 username soup :
  delete "timestamp" (profile_record now1 username soup) =
  delete "timestamp" (profile_record now2 username soup).
Proof.
  unfold profile_record. rewrite !fold_apply_stat_timestamp.
  destruct (find bio_cue soup), (find avatar_cue soup);
    by rewrite ?(delete_insert_ne _ "timestamp" "profile_image"),
               ?(delete_insert_ne _ "timestamp" "bio"), !delete_insert_eq by done.
Qed.

(** X9. Two profile scans of an unchanged page, made at any two times,
    return the same record apart from the timestamp, or both nothing. *)
Theorem get_broadcaster_profile_repeatable clock1 clock2 tick1 tick2 username :
  ∃ profile1 profile2,
    get_broadcaster_profile session_get BeautifulSoup clock1 tick1 username =
      Return profile1 ∧
    get_broadcaster_profile session_get BeautifulSoup clock2 tick2 username =
      Return profile2 ∧
    delete "timestamp" <$> profile1 = delete "timestamp" <$> profile2.
Proof.
  destruct (session_get (profile_url username)) as [html|e] eqn:Hfetch.
  - destruct (BeautifulSoup html) as [soup|e] eqn:Hparse.
    + rewrite !(get_broadcaster_profile_record _ _ _ _ _ html soup) by done.
      do 2 eexists. do 2 (split; [reflexivity |]).
      cbn [fmap option_fmap option_map].
      by rewrite (profile_record_without_timestamp (clock1 tick1) (clock2 tick2)).
    + exists None, None. unfold get_broadcaster_profile.
      fold (profile_url username). rewrite Hfetch, !bind_Return, Hparse.
      by repeat split.
  - exists None, None. unfold get_broadcaster_profile.
    fold (profile_url username). rewrite Hfetch. by repeat split.
Qed.

End ProfileRecords.

Section ProfileInstances.
Import Py Bs4 TangoScraper Samples.

Lemma get_broadcaster_profile_shape_witness :
  ∃ d,
    get_broadcaster_profile fetched (served bob_page) wall_clock 0 "bob" =
      Return (Some d) ∧
    dom d = profile_keys ∧
    d !! "username" = Some (VStr "bob") ∧
    d !! "total_streams" = Some (VInt 0).
Proof.
  destruct (get_broadcaster_profile_shape
              fetched (served bob_page) wall_clock 0 "bob" "<html>" bob_page
              eq_refl eq_refl)
    as (d & Hrun & Hdom & Hname & Htotal & _).
  by exists d.
Defined.

Lemma profile_counts_not_negative_witness :
  ∃ d followers following,
    get_broadcaster_profile fetched (served bob_page) wall_clock 0 "bob" =
      Return (Some d) ∧
    d !! "followers" = Some (VInt followers) ∧ 0 ≤ followers ∧
    d !! "following" = Some (VInt following) ∧ 0 ≤ following.
Proof.
  exact (profile_counts_not_negative
           fetched (served bob_page) wall_clock 0 "bob" "<html>" bob_page
           eq_refl eq_refl).
Defined.

End ProfileInstances.

(** ** The normaliser and letter case *)

Section LetterCase.
Import Py TangoScraper.

Lemma lower_char_idempotent c : lower_char (lower_char c) = lower_char c.
Proof. destruct c as [[] [] [] [] [] [] [] []]; vm_compute; reflexivity. Qed.

Lemma lower_char_digit_or_dot c :
  digit_or_dot (lower_char c) = digit_or_dot c ∧
  (digit_or_dot c = true → lower_char c = c).
Proof.
  destruct c as [[] [] [] [] [] [] [] []]; vm_compute; split;
    first [reflexivity | discriminate].
Qed.

Lemma take_run_lower s : Spec.take_run (lower s) = Spec.take_run s.
Proof.
  induction s as [|c r IH]; [done |]. cbn [lower Spec.take_run].
  destruct (lower_char_digit_or_dot c) as [-> Hc].
  destruct (digit_or_dot c); [| done]. by rewrite Hc, IH.
Qed.

Lemma first_run_lower s : Spec.first_run (lower s) = Spec.first_run s.
Proof.
  induction s as [|c r IH]; [done |].
  cbn [lower Spec.first_run Spec.take_run].
  destruct (lower_char_digit_or_dot c) as [-> Hc].
  destruct (digit_or_dot c); [| done]. by rewrite Hc, take_run_lower.
Qed.

Lemma has_unit_lower u s : Spec.has_unit u (lower s) = Spec.has_unit u s.
Proof.
  induction s as [|c r IH]; [done |]. cbn [lower Spec.has_unit].
  by rewrite lower_char_idempotent, IH.
Qed.

(** X10. The normaliser does not see letter case: a text and its
    lower-cased form give the same number. *)
Theorem extract_number_ignores_case text :
  _extract_number (lower text) = _extract_number text.
Proof.
  rewrite !_extract_number_normalize. f_equal.
  unfold Spec.normalize, Spec.scale.
  by rewrite first_run_lower, !has_unit_lower.
Qed.

End LetterCase.

(** ** The listings of the chat commands *)

Section Listings.
Import Py Bs4 TangoScraper Bot.

Lemma remove_char_absent c s : contains (String c EmptyString) (remove_char c s) = false.
Proof.
  induction s as [|a r IH]; [done |]. cbn [remove_char].
  destruct (Ascii.eqb_spec a c) as [->|Hne]; [exact IH |].
  cbn [contains startswith]. rewrite IH, andb_true_r, orb_false_r.
  apply Ascii.eqb_neq. congruence.
Qed.

Lemma remove_char_id c s :
  contains (String c EmptyString) s = false → remove_char c s = s.
Proof.
  induction s as [|a r IH]; [done |]. cbn [contains startswith remove_char].
  rewrite andb_true_r. intros [Hc Hr]%orb_false_elim.
  rewrite Ascii.eqb_sym, Hc. by rewrite IH.
Qed.

Lemma remove_char_app c s t :
  remove_char c (s +:+ t) = remove_char c s +:+ remove_char c t.
Proof.
  induction s as [|a r IH]; [done |].
  rewrite append_cons. cbn [remove_char].
  destruct (Ascii.eqb a c); [exact IH |]. by rewrite append_cons, IH.
Qed.

(** X11. The username [profile_command] asks for has every "@" of the
    argument removed, wherever it stands, not only a leading one; an
    argument without "@" is used as it is. *)
Theorem requested_username_has_no_at :
  (∀ arg, contains "@" (requested_username arg) = false) ∧
  (∀ arg, contains "@" arg = false → requested_username arg = arg) ∧
  (∀ before after,
     requested_username (before +:+ "@" +:+ after) =
     requested_username before +:+ requested_username after).
Proof.
  unfold requested_username. split; [| split].
  - intros arg. apply remove_char_absent.
  - intros arg. apply remove_char_id.
  - intros before after. by rewrite !remove_char_app.
Qed.

Lemma key_lt_counted x y :
  counted x → counted y →
  key_lt (viewers_key x) (viewers_key y) = (viewers_number x <? viewers_number y).
Proof.
  unfold counted, is_number, key_lt, viewers_number.
  by destruct (number_of (viewers_key x)), (number_of (viewers_key y)).
Qed.

Lemma insert_desc_perm x sorted : insert_desc x sorted ≡ₚ x :: sorted.
Proof.
  induction sorted as [|y rest IH]; [done |]. cbn [insert_desc].
  destruct (key_lt _ _); [| done]. rewrite IH. apply Permutation_swap.
Qed.

Lemma sort_desc_perm l : sort_desc l ≡ₚ l.
Proof.
  induction l as [|x rest IH]; [done |]. cbn [sort_desc].
  by rewrite insert_desc_perm, IH.
Qed.

Lemma insert_desc_sorted x sorted :
  counted x → Forall counted sorted →
  StronglySorted outranks sorted → StronglySorted outranks (insert_desc x sorted).
Proof.
  intros Hx. induction sorted as [|y rest IH]; intros Hall Hsorted.
  - cbn [insert_desc]. by repeat constructor.
  - cbn [insert_desc].
    apply Forall_cons in Hall as [Hy Hrest].
    apply StronglySorted_cons in Hsorted as [Hyrest Hsorted].
    rewrite key_lt_counted by done.
    destruct (Z.ltb_spec (viewers_number x) (viewers_number y)) as [Hlt|Hge].
    + apply StronglySorted_cons. split; [| by apply IH].
      rewrite insert_desc_perm. constructor; [| done].
      unfold outranks. lia.
    + apply StronglySorted_cons. split.
      * constructor; [done |].
        eapply Forall_impl; [exact Hyrest |].
        unfold outranks. intros z Hz. lia.
      * by apply StronglySorted_cons.
Qed.

Lemma sort_desc_sorted l :
  Forall counted l → StronglySorted outranks (sort_desc l).
Proof.
  induction l as [|x rest IH]; intros Hall; [constructor |].
  apply Forall_cons in Hall as [Hx Hrest]. cbn [sort_desc].
  apply insert_desc_sorted; [done | by rewrite sort_desc_perm | by apply IH].
Qed.

Lemma insert_desc_stable n x sorted :
  counted x → Forall counted sorted →
  filter (λ y, viewers_number y = n) (insert_desc x sorted) =
  filter (λ y, viewers_number y = n) (x :: sorted).
Proof.
  intros Hx. induction sorted as [|y rest IH]; intros Hall; [done |].
  cbn [insert_desc]. apply Forall_cons in Hall as [Hy Hrest].
  rewrite key_lt_counted by done.
  destruct (Z.ltb_spec (viewers_number x) (viewers_number y)) as [Hlt|Hge];
    [| done].
  rewrite (filter_cons _ y), IH by done. rewrite !(filter_cons _ x), (filter_cons _ y).
  repeat case_decide; first [done | lia].
Qed.

Lemma sort_desc_stable n l :
  Forall counted l →
  filter (λ y, viewers_number y = n) (sort_desc l) =
  filter (λ y, viewers_number y = n) l.
Proof.
  induction l as [|x rest IH]; intros Hall; [done |].
  apply Forall_cons in Hall as [Hx Hrest]. cbn [sort_desc].
  rewrite insert_desc_stable; [| done | by rewrite sort_desc_perm].
  rewrite !(filter_cons _ x), IH by done. done.
Qed.

Lemma sorted_by_viewers_counted l :
  Forall counted l → sorted_by_viewers l = Some (sort_desc l).
Proof.
  intros Hall. unfold sorted_by_viewers.
  assert (forallb is_number (viewers_key <$> l) = true) as ->; [| by rewrite orb_true_r].
  induction Hall as [|x rest Hx _ IH]; [done |].
  cbn [fmap list_fmap forallb]. by rewrite Hx, IH.
Qed.

(** X12. On records whose viewer counts are numbers the ranking of both
    listings succeeds and is a stable descending sort: it holds the same
    records, none before one with more viewers, and records with equal
    counts in the order the scan returned them. *)
Theorem sorted_by_viewers_ranks l :
  Forall counted l →
  ∃ ranking,
    sorted_by_viewers l = Some ranking ∧
    ranking ≡ₚ l ∧
    StronglySorted outranks ranking ∧
    ∀ n, filter (λ y, viewers_number y = n) ranking =
         filter (λ y, viewers_number y = n) l.
Proof.
  intros Hall. exists (sort_desc l).
  split; [by apply sorted_by_viewers_counted |].
  split; [apply sort_desc_perm |].
  split; [by apply sort_desc_sorted |].
  intros n. by apply sort_desc_stable.
Qed.

Lemma ranking_prefix n l :
  Forall counted l →
  length (take n (sort_desc l)) = min n (length l) ∧
  take n (sort_desc l) ++ drop n (sort_desc l) ≡ₚ l ∧
  ∀ a b, a ∈ take n (sort_desc l) → b ∈ drop n (sort_desc l) → outranks a b.
Proof.
  intros Hall.
  split; [by rewrite length_take, sort_desc_perm |].
  split; [by rewrite take_drop, sort_desc_perm |].
  intros a b Ha Hb.
  eapply (StronglySorted_app_1_elem_of _ (take n (sort_desc l)) (drop n (sort_desc l)));
    [| done | done].
  rewrite take_drop. by apply sort_desc_sorted.
Qed.

(** X13. The top listing shows the first five of the ranking and the live
    listing the first ten, or all of it when there are fewer, so the top
    listing never needs more than its five medals; and no record left out of
    a listing has more viewers than a record shown in it. *)
Theorem listings_show_the_best l :
  Forall counted l →
  (∃ top rest,
     top_broadcasters l = Some top ∧
     length top = min 5 (length l) ∧
     top ++ rest ≡ₚ l ∧
     ∀ a b, a ∈ top → b ∈ rest → outranks a b) ∧
  (∃ shown rest,
     live_listing l = Some shown ∧
     length shown = min 10 (length l) ∧
     shown ++ rest ≡ₚ l ∧
     ∀ a b, a ∈ shown → b ∈ rest → outranks a b).
Proof.
  intros Hall. unfold top_broadcasters, live_listing.
  rewrite sorted_by_viewers_counted by done. split.
  - exists (take 5 (sort_desc l)), (drop 5 (sort_desc l)).
    split; [done | by apply ranking_prefix].
  - exists (take 10 (sort_desc l)), (drop 10 (sort_desc l)).
    split; [done | by apply ranking_prefix].
Qed.

Lemma length_append (s t : string) :
  String.length (s +:+ t) = (String.length s + String.length t)%nat.
Proof.
  induction s as [|c r IH]; [done |]. rewrite append_cons.
  cbn [String.length]. by rewrite IH.
Qed.

Lemma length_take_chars n s :
  String.length (take_chars n s) = min n (String.length s).
Proof.
  revert s. induction n as [|n IH]; intros [|c r]; cbn [take_chars String.length];
    try done.
  by rewrite IH.
Qed.

Lemma take_chars_all n s : (String.length s ≤ n)%nat → take_chars n s = s.
Proof.
  revert s. induction n as [|n IH]; intros [|c r]; cbn [take_chars String.length];
    try done; [lia |].
  intros Hlen. rewrite IH; [done | lia].
Qed.

(** X14. A title or bio is shown whole when it is no longer than the limit;
    a longer one is cut to the limit and marked with three dots, so the text
    shown is never longer than the limit plus three. *)
Theorem shown_is_bounded limit title :
  (String.length (shown limit title) ≤ limit + 3)%nat ∧
  ((String.length title ≤ limit)%nat → shown limit title = title) ∧
  ((limit < String.length title)%nat →
   shown limit title = take_chars limit title +:+ "..." ∧
   String.length (shown limit title) = (limit + 3)%nat).
Proof.
  assert (String.length (shown limit title) =
          (min limit (String.length title) +
           if (limit <? String.length title)%nat then 3 else 0)%nat) as Hlen.
  { unfold shown. rewrite length_append, length_take_chars.
    by destruct (limit <? String.length title)%nat. }
  split; [| split].
  - rewrite Hlen. destruct (limit <? String.length title)%nat; lia.
  - intros Hshort. unfold shown.
    destruct (Nat.ltb_spec limit (String.length title)) as [Hlong|_]; [lia |].
    by rewrite take_chars_all, append_empty.
  - intros Hlong. split.
    + unfold shown.
      by destruct (Nat.ltb_spec limit (String.length title)) as [_|Hshort]; [| lia].
    + rewrite Hlen.
      destruct (Nat.ltb_spec limit (String.length title)) as [_|Hshort]; lia.
Qed.

End Listings.

(** ** The listings on what the scan returns *)

Section ListingOfScan.
Import Py Bs4 TangoScraper Bot.

Variable session_get : string → result string.
Variable BeautifulSoup : string → result node.
Variable clock : nat → string.

Lemma listed_counted d : listed d → counted d.
Proof.
  intros (_ & _ & (viewers & Hviewers & _) & _).
  unfold counted, viewers_key. by rewrite Hviewers.
Qed.

(** X15. The ranking never fails on what the directory scan returns: every
    record of a scan carries an integer viewer count, so the sort of
    [live_broadcasters_command] and [top_broadcasters_command] raises no
    [TypeError], whatever the page held. *)
Theorem ranking_of_scan_succeeds tick :
  ∃ records ranking,
    get_live_broadcasters session_get BeautifulSoup clock tick = Return records ∧
    sorted_by_viewers records = Some ranking ∧
    ranking ≡ₚ records ∧
    StronglySorted outranks ranking.
Proof.
  assert (∃ records,
            get_live_broadcasters session_get BeautifulSoup clock tick =
              Return records ∧ Forall counted records) as (records & Hrun & Hall).
  { destruct (get_live_broadcasters_cases session_get BeautifulSoup clock tick)
      as [-> | (html & soup & _ & _ & ->)].
    - by exists [].
    - eexists. split; [reflexivity |].
      eapply Forall_impl; [apply card_records_listed | apply listed_counted]. }
  exists records, (sort_desc records).
  split; [done |].
  split; [by apply sorted_by_viewers_counted |].
  split; [apply sort_desc_perm | by apply sort_desc_sorted].
Qed.

End ListingOfScan.

Section ListingInstances.
Import Py Bot Samples.

Lemma sorted_by_viewers_ranks_witness :
  ∃ ranking,
    sorted_by_viewers sample_scan = Some ranking ∧
    ranking ≡ₚ sample_scan ∧
    StronglySorted outranks ranking ∧
    ∀ n, filter (λ y, viewers_number y = n) ranking =
         filter (λ y, viewers_number y = n) sample_scan.
Proof.
  apply sorted_by_viewers_ranks.
  repeat (constructor; [vm_compute; reflexivity |]). constructor.
Defined.

Lemma listings_show_the_best_witness :
  ∃ top rest,
    top_broadcasters sample_scan = Some top ∧
    length top = 5%nat ∧
    top ++ rest ≡ₚ sample_scan ∧
    ∀ a b, a ∈ top → b ∈ rest → outranks a b.
Proof.
  refine (proj1 (listings_show_the_best sample_scan _)).
  repeat (constructor; [vm_compute; reflexivity |]). constructor.
Defined.

End ListingInstances.

(** ** Whole counts are read exactly *)

Section Exactness.
Import Py TangoScraper.

Lemma digits2_pos_size p : digits2_pos p = Pos.size p.
Proof. induction p; cbn [digits2_pos Pos.size]; congruence. Qed.

Lemma Zdigits2_log2 z : 0 < z → Zdigits2 z = Z.log2 z + 1.
Proof.
  destruct z as [|p|p]; [lia | | lia]. intros _.
  cbn [Zdigits2]. rewrite digits2_pos_size.
  destruct p; cbn [Z.log2 Pos.size]; lia.
Qed.

Lemma iter_pos_shr_1_exact p :
  ∀ w : positive,
    SpecFloat.iter_pos shr_1 p (Build_shr_record (Zpos w * 2 ^ Zpos p) false false) =
    Build_shr_record (Zpos w) false false.
Proof.
  induction p as [p IH|p IH|]; intros w; cbn [SpecFloat.iter_pos].
  - replace (Zpos w * 2 ^ Zpos p~1) with (2 * (Zpos w * 2 ^ Zpos p * 2 ^ Zpos p)).
    2:{ replace (Zpos p~1) with (Zpos p + Zpos p + 1) by lia.
        rewrite !Z.pow_add_r by lia. ring. }
    assert (∃ v : positive, Zpos w * 2 ^ Zpos p * 2 ^ Zpos p = Zpos v) as [v Hv].
    { destruct (Zpos w * 2 ^ Zpos p * 2 ^ Zpos p) as [|v|v] eqn:Hz;
        [| by exists v |]; assert (0 < 2 ^ Zpos p) by (apply Z.pow_pos_nonneg; lia); nia. }
    rewrite Hv. change (2 * Z.pos v) with (Z.pos v~0).
    cbn [shr_1 orb]. rewrite <- Hv.
    assert (∃ u : positive, Zpos w * 2 ^ Zpos p = Zpos u) as [u Hu].
    { destruct (Zpos w * 2 ^ Zpos p) as [|u|u] eqn:Hz;
        [| by exists u |]; assert (0 < 2 ^ Zpos p) by (apply Z.pow_pos_nonneg; lia); nia. }
    rewrite Hu, IH, <- Hu. apply IH.
  - replace (Zpos w * 2 ^ Zpos p~0) with (Zpos w * 2 ^ Zpos p * 2 ^ Zpos p).
    2:{ replace (Zpos p~0) with (Zpos p + Zpos p) by lia.
        rewrite !Z.pow_add_r by lia. ring. }
    assert (∃ u : positive, Zpos w * 2 ^ Zpos p = Zpos u) as [u Hu].
    { destruct (Zpos w * 2 ^ Zpos p) as [|u|u] eqn:Hz;
        [| by exists u |]; assert (0 < 2 ^ Zpos p) by (apply Z.pow_pos_nonneg; lia); nia. }
    rewrite Hu, IH, <- Hu. apply IH.
  - replace (Zpos w * 2 ^ 1) with (Zpos w~0) by lia. reflexivity.
Qed.

Lemma Zdigits2_shift (w : positive) k :
  0 ≤ k → Zdigits2 (Zpos w * 2 ^ k) = Zdigits2 (Zpos w) + k.
Proof.
  intros Hk.
  assert (0 < Zpos w * 2 ^ k)
    by (apply Z.mul_pos_pos; [lia | apply Z.pow_pos_nonneg; lia]).
  rewrite !Zdigits2_log2, Z.log2_mul_pow2 by lia. lia.
Qed.

(** Rounding a mantissa whose low bits are all zero drops those bits and
    changes nothing else. *)
Lemma binary_round_aux_exact (w : positive) k e :
  0 ≤ k →
  fexp prec emax (Zdigits2 (Zpos w * 2 ^ k) + e) - e = k →
  e + k ≤ emax - prec →
  binary_round_aux prec emax false (Zpos w * 2 ^ k) e loc_Exact =
    S754_finite false w (e + k).
Proof.
  intros Hk Hshift Hmax.
  assert (fexp prec emax (Zdigits2 (Zpos w) + (e + k)) - (e + k) = 0) as Hstay.
  { rewrite Zdigits2_shift in Hshift by done.
    replace (Zdigits2 (Zpos w) + (e + k)) with (Zdigits2 (Zpos w) + k + e) by lia.
    lia. }
  assert ((e + k <=? emax - prec) = true) as Hleb by (apply Z.leb_le; lia).
  unfold binary_round_aux, shr_fexp. rewrite Hshift.
  cbn [shr_record_of_loc].
  destruct k as [|p|p]; [| | lia].
  - cbn [shr]. rewrite Z.pow_0_r, Z.mul_1_r.
    cbn [shr_m loc_of_shr_record round_nearest_even shr_record_of_loc].
    rewrite Z.add_0_r in Hstay, Hleb. rewrite Hstay.
    cbn [shr shr_m]. rewrite Z.add_0_r. by rewrite Hleb.
  - cbn [shr]. rewrite iter_pos_shr_1_exact.
    cbn [shr_m loc_of_shr_record round_nearest_even shr_record_of_loc].
    rewrite Hstay. cbn [shr shr_m]. by rewrite Hleb.
Qed.

Lemma fexp_binary64 x : -1021 ≤ x → fexp prec emax x = x - 53.
Proof. unfold fexp, emin, prec, emax. lia. Qed.

Lemma whole_mantissa (p : positive) j :
  0 ≤ j → Zpos (Z.to_pos (Zpos p * 2 ^ j)) = Zpos p * 2 ^ j.
Proof.
  intros Hj. rewrite Z2Pos.id; [done |].
  apply Z.mul_pos_pos; [lia | apply Z.pow_pos_nonneg; lia].
Qed.

Lemma log2_below_53 n : 0 < n → n < 2 ^ 53 → 0 ≤ Z.log2 n ≤ 52.
Proof.
  intros Hpos Hlt. split; [apply Z.log2_nonneg |].
  apply Z.log2_lt_pow2 in Hlt; lia.
Qed.

Lemma int_of_float_whole n : 0 ≤ n → n < 2 ^ 53 → int_of_float (whole n) = Return n.
Proof.
  intros Hn Hlt. destruct n as [|p|p]; [done | | lia].
  destruct (log2_below_53 (Zpos p)) as [Hlo Hhi]; [lia | done |].
  unfold whole, int_of_float. cbn [cond_Zopp].
  rewrite whole_mantissa by lia. f_equal.
  destruct (Z.leb_spec 0 (Z.log2 (Zpos p) - 52)) as [Hle|Hgt].
  - replace (Z.log2 (Zpos p) - 52) with 0 by lia.
    replace (52 - Z.log2 (Zpos p)) with 0 by lia.
    rewrite !Z.pow_0_r. lia.
  - replace (- (Z.log2 (Zpos p) - 52)) with (52 - Z.log2 (Zpos p)) by lia.
    apply Z.quot_mul. apply Z.pow_nonzero; lia.
Qed.

Lemma SFdiv_by_one (p : positive) :
  Zpos p < 2 ^ 53 →
  SFdiv prec emax (S754_finite false p 0) (S754_finite false 1 0) = whole (Zpos p).
Proof.
  intros Hlt.
  destruct (log2_below_53 (Zpos p)) as [Hlo Hhi]; [lia | done |].
  unfold SFdiv, SFdiv_core_binary.
  rewrite (Zdigits2_log2 (Zpos p)) by lia. change (Zdigits2 1) with 1.
  rewrite fexp_binary64 by lia.
  replace (Z.min (Z.log2 (Zpos p) + 1 + 0 - (1 + 0) - 53) (0 - 0))
    with (Z.log2 (Zpos p) - 53) by lia.
  replace (0 - 0 - (Z.log2 (Zpos p) - 53)) with (53 - Z.log2 (Zpos p)) by lia.
  destruct (53 - Z.log2 (Zpos p)) as [|s|s] eqn:Hs; [lia | | lia].
  rewrite Z.shiftl_mul_pow2 by lia.
  rewrite (surjective_pairing (Z.div_eucl _ 1)).
  change (fst (Z.div_eucl ?a 1)) with (a / 1).
  change (snd (Z.div_eucl ?a 1)) with (a mod 1).
  rewrite Z.div_1_r, Z.mod_1_r.
  change (new_location 1 0) with loc_Exact. cbn [xorb].
  replace (Zpos p * 2 ^ Zpos s)
    with (Zpos (Z.to_pos (Zpos p * 2 ^ (52 - Z.log2 (Zpos p)))) * 2 ^ 1).
  2:{ rewrite whole_mantissa by lia.
      replace (Zpos s) with (52 - Z.log2 (Zpos p) + 1) by lia.
      rewrite Z.pow_add_r by lia. ring. }
  rewrite binary_round_aux_exact.
  - unfold whole. f_equal. lia.
  - lia.
  - rewrite Zdigits2_shift, Zdigits2_log2, whole_mantissa by lia.
    rewrite Z.log2_mul_pow2 by lia. rewrite fexp_binary64 by lia. lia.
  - unfold emax, prec. lia.
Qed.

Lemma float_mul_whole a b :
  0 < a → 0 < b → a * b < 2 ^ 53 →
  float_mul (whole a) (whole b) = whole (a * b).
Proof.
  intros Ha Hb Hlt.
  assert (a < 2 ^ 53) by nia. assert (b < 2 ^ 53) by nia.
  destruct a as [|p|p]; [lia | | lia]. destruct b as [|q|q]; [lia | | lia].
  destruct (log2_below_53 (Zpos p)) as [? ?]; [lia | done |].
  destruct (log2_below_53 (Zpos q)) as [? ?]; [lia | done |].
  destruct (log2_below_53 (Zpos p * Zpos q)) as [? ?]; [lia | done |].
  pose proof (Z.log2_mul_below (Zpos p) (Zpos q)) as Hbelow.
  pose proof (Z.log2_mul_above (Zpos p) (Zpos q)) as Habove.
  change (Zpos p * Zpos q) with (Zpos (p * q)) in *.
  unfold float_mul, whole, SFmul. cbn [xorb].
  rewrite Pos2Z.inj_mul, !whole_mantissa by lia.
  set (La := Z.log2 (Zpos p)) in *. set (Lb := Z.log2 (Zpos q)) in *.
  set (Lab := Z.log2 (Zpos (p * q))) in *.
  replace (Zpos p * 2 ^ (52 - La) * (Zpos q * 2 ^ (52 - Lb)))
    with (Zpos (Z.to_pos (Zpos (p * q) * 2 ^ (52 - Lab))) * 2 ^ (52 + Lab - La - Lb)).
  2:{ rewrite whole_mantissa by lia.
      replace (52 - La) with ((52 - Lab) + (Lab - La)) by lia.
      replace (52 + Lab - La - Lb) with ((Lab - La) + (52 - Lb)) by lia.
      rewrite Pos2Z.inj_mul.
      rewrite !Z.pow_add_r by lia. ring. }
  rewrite binary_round_aux_exact.
  - f_equal. lia.
  - lia.
  - rewrite Zdigits2_shift, Zdigits2_log2, whole_mantissa by lia.
    rewrite Z.log2_mul_pow2 by lia. fold Lab. rewrite fexp_binary64 by lia. lia.
  - unfold emax, prec. lia.
Qed.

Lemma is_digit_facts c :
  is_digit c = true → is_dot c = false ∧ 0 ≤ digit_val c.
Proof.
  destruct c as [[] [] [] [] [] [] [] []]; vm_compute; intros H; split;
    first [reflexivity | discriminate].
Qed.

Lemma digits_value_nonneg s : ∀ acc, 0 ≤ acc → 0 ≤ digits_value acc s.
Proof.
  induction s as [|c r IH]; intros acc Hacc; cbn [digits_value]; [done |].
  destruct (is_digit c) eqn:Hc; [| by apply IH].
  apply IH. destruct (is_digit_facts c Hc). lia.
Qed.

Lemma all_digits_shape s :
  all_digits s = true →
  all_digit_or_dot s = true ∧ count_dots s = 0%nat ∧
  fraction_digits s = 0%nat ∧ count_digits s = String.length s.
Proof.
  induction s as [|c r IH]; [done |].
  cbn [all_digits all_digit_or_dot count_dots fraction_digits count_digits
       String.length].
  intros [Hc Hr]%andb_prop. destruct (IH Hr) as (-> & -> & -> & ->).
  destruct (is_digit_facts c Hc) as [-> _]. by rewrite Hc.
Qed.

Lemma float_of_str_digits run :
  run ≠ EmptyString → all_digits run = true → digits_value 0 run < 2 ^ 53 →
  float_of_str run = Return (whole (digits_value 0 run)).
Proof.
  intros Hrun Hdigits Hlt. unfold float_of_str.
  destruct (all_digits_shape run Hdigits) as (-> & -> & -> & ->).
  destruct run as [|c r]; [done |]. cbn [String.length Nat.leb Nat.ltb andb].
  change (Z.to_pos (10 ^ Z.of_nat 0)) with 1%positive.
  destruct (digits_value 0 (String c r)) as [|p|p] eqn:Hvalue; [done | | done].
  by rewrite SFdiv_by_one.
Qed.

Lemma first_run_nonempty text run :
  Spec.first_run text = Some run → run ≠ EmptyString.
Proof.
  induction text as [|c r IH]; [done |]. cbn [Spec.first_run Spec.take_run].
  destruct (digit_or_dot c); [| exact IH]. by intros [= <-].
Qed.

Lemma scale_whole text n :
  0 ≤ n → n * unit_factor text < 2 ^ 53 →
  Spec.scale text (whole n) = whole (n * unit_factor text).
Proof.
  intros Hn Hlt. unfold Spec.scale, unit_factor in *.
  rewrite <- !(contains_letter _ text).
  destruct (contains "k" (lower text)).
  - change (float_of_int 1000) with (whole 1000).
    destruct n as [|p|p]; [done | | lia]. by apply float_mul_whole.
  - destruct (contains "m" (lower text)).
    + change (float_of_int 1000000) with (whole 1000000).
      destruct n as [|p|p]; [done | | lia]. by apply float_mul_whole.
    + by rewrite Z.mul_1_r.
Qed.

(** X16. A count written in digits is read exactly. When the first run of
    the text is made of digits only and its value, times 1000 for a "k" in
    the text or else times 1000000 for an "m", stays below 2^53, the
    normaliser returns that product with no rounding. *)
Theorem whole_counts_are_exact text run :
  Spec.first_run text = Some run →
  all_digits run = true →
  digits_value 0 run * unit_factor text < 2 ^ 53 →
  _extract_number text = Return (digits_value 0 run * unit_factor text).
Proof.
  intros Hrun Hdigits Hlt.
  pose proof (digits_value_nonneg run 0 ltac:(lia)) as Hn.
  assert (1 ≤ unit_factor text) as Hfactor
    by (unfold unit_factor; repeat case_match; lia).
  rewrite _extract_number_normalize. f_equal.
  unfold Spec.normalize. rewrite Hrun.
  rewrite float_of_str_digits;
    [| by eapply first_run_nonempty | done | nia].
  rewrite scale_whole by done.
  unfold Spec.truncate. rewrite int_of_float_whole; [done | nia | done].
Qed.

Lemma whole_counts_are_exact_witness :
  _extract_number "532 watching" = Return 532 ∧
  _extract_number "12k" = Return 12000.
Proof.
  split.
  - apply (whole_counts_are_exact "532 watching" "532"); vm_compute; reflexivity.
  - apply (whole_counts_are_exact "12k" "12"); vm_compute; reflexivity.
Defined.

End Exactness.
